(** * Orchestration core of dailyrootcauseanalysis

    A shallow embedding of the Python orchestration code:
    - [HttpTrigger1/__init__.py]: the Azure Functions entry point that runs
      the configured scripts, verifies the expected files and deletes them;
    - [HttpTrigger1/main.py]: the asyncio stage executor;
    - [HttpTrigger1/app.py] and [src/app.py]: the two Flask gateways with the
      status file.

    Python functions are embedded as computations in a state-and-exception
    monad over an explicit world (file system, environment, logs). *)

From stdpp Require Import gmap strings pretty list fin_maps.
From Stdlib Require Import ZArith Ascii.

Local Open Scope Z_scope.
Local Open Scope string_scope.

(** ** Exceptions and results *)

(** The operating-system errors the modelled calls can raise. *)
Inductive oserror :=
| ENOENT   (* FileNotFoundError *)
| EISDIR   (* IsADirectoryError *)
| EACCES.  (* PermissionError *)

(** The Python exceptions that occur in the modelled code.  All of them are
    subclasses of [Exception]. *)
Inductive exn :=
| CalledProcessError (returncode : Z)
| OSError (e : oserror)
| ValueError
| UnicodeDecodeError
| RequestException.

Inductive result (A : Type) :=
| Returned (a : A)
| Raised (e : exn).
Arguments Returned {A} a.
Arguments Raised {A} e.

Definition is_returned {A} (r : result A) : bool :=
  match r with Returned _ => true | Raised _ => false end.

(** ** The monad of Python computations over a world [S] *)

Definition M (S A : Type) : Type := S → result A * S.

Definition ret {S A} (a : A) : M S A := λ s, (Returned a, s).

Definition bind {S A B} (m : M S A) (k : A → M S B) : M S B :=
  λ s, match m s with
       | (Returned a, s') => k a s'
       | (Raised e, s') => (Raised e, s')
       end.

Definition raise {S A} (e : exn) : M S A := λ s, (Raised e, s).

(** [try: m except <class> as e: h e], where [handles e] tells whether the
    exception [e] is an instance of the class named in the [except] clause. *)
Definition try_except {S A} (m : M S A) (handles : exn → bool) (h : exn → M S A)
  : M S A :=
  λ s, match m s with
       | (Returned a, s') => (Returned a, s')
       | (Raised e, s') => if handles e then h e s' else (Raised e, s')
       end.

Definition get {S} : M S S := λ s, (Returned s, s).
Definition modify {S} (f : S → S) : M S unit := λ s, (Returned tt, f s).

Declare Scope py_scope.
Delimit Scope py_scope with py.
Notation "'let!' x ':=' m 'in' k" := (bind m (λ x, k))
  (at level 10, x name, m at level 100, k at level 200,
   format "'[v' 'let!'  x  ':='  m  'in' '/' k ']'") : py_scope.
Notation "m '>>' k" := (bind m (λ _, k))
  (at level 100, k at level 200, right associativity) : py_scope.
Local Open Scope py_scope.

(** [for x in l: body x] *)
Fixpoint for_each {S A} (l : list A) (body : A → M S unit) : M S unit :=
  match l with
  | [] => ret tt
  | x :: l' => body x >> for_each l' body
  end.

(** [except Exception] and [except subprocess.CalledProcessError]. *)
Definition is_Exception (e : exn) : bool := true.
Definition is_CalledProcessError (e : exn) : bool :=
  match e with CalledProcessError _ => true | _ => false end.

(** ** Strings and paths *)

Definition startswith (s p : string) : bool := String.prefix p s.

Definition endswith (s suffix : string) : bool :=
  let n := String.length s in
  let k := String.length suffix in
  (k <=? n)%nat && String.eqb (String.substring (n - k) k s) suffix.

(** [os.path.join(a, b)] of [posixpath]. *)
Definition os_path_join (a b : string) : string :=
  if startswith b "/" then b
  else if String.eqb a "" || endswith a "/" then a ++ b
  else a ++ "/" ++ b.

(** The line feed of ["\n"]. *)
Definition LF : string := String (ascii_of_nat 10) EmptyString.

(** [", ".join(l)] *)
Fixpoint join_comma (l : list string) : string :=
  match l with
  | [] => ""
  | [x] => x
  | x :: l' => x ++ ", " ++ join_comma l'
  end.

(** ** The file system

    A disk maps the path of every existing entry to its kind.  Paths are the
    strings handed to the [os] functions. *)
Inductive kind := File | Dir.

Global Instance kind_eq_dec : EqDecision kind.
Proof. solve_decision. Defined.

Abbreviation Disk := (gmap string kind).

Definition isfile (d : Disk) (p : string) : bool :=
  bool_decide (d !! p = Some File).

(** [s] with the prefix [p] removed, when [s] starts with [p]. *)
Fixpoint strip_prefix (p s : string) : option string :=
  match p with
  | EmptyString => Some s
  | String a p' =>
      match s with
      | String b s' => if Ascii.eqb a b then strip_prefix p' s' else None
      | EmptyString => None
      end
  end.

Fixpoint has_slash (s : string) : bool :=
  match s with
  | EmptyString => false
  | String a s' => Ascii.eqb a "/"%char || has_slash s'
  end.

(** The name under which the entry at path [p] is listed in directory [dir],
    when it lies directly in [dir]. *)
Definition entry_name (dir p : string) : option string :=
  match strip_prefix (os_path_join dir "") p with
  | Some n => if negb (String.eqb n "") && negb (has_slash n) then Some n else None
  | None => None
  end.

Definition listdir (d : Disk) (dir : string) : list string :=
  omap (entry_name dir) (map_to_list d).*1.

(** Processes launched by the code.  [CannotStart] is a launch failure (the
    executable is missing or cannot be started); an exited process has a
    return code and its captured output, [None] standing for bytes that do
    not decode. *)
Inductive proc :=
| CannotStart (e : oserror)
| Exited (returncode : Z) (stdout stderr : option string).

Inductive level := INFO | WARNING | ERROR.

(** Rendering of an exception in a log message ([f"{e}"]), abbreviated to
    the class of the exception. *)
Definition str_exn (e : exn) : string :=
  match e with
  | CalledProcessError _ => "CalledProcessError"
  | OSError ENOENT => "FileNotFoundError"
  | OSError EISDIR => "IsADirectoryError"
  | OSError EACCES => "PermissionError"
  | ValueError => "ValueError"
  | UnicodeDecodeError => "UnicodeDecodeError"
  | RequestException => "RequestException"
  end.

(** ** [HttpTrigger1/__init__.py]: the request/response pipeline *)

Module HttpTrigger1.

(** Calls of the three pipeline components, recorded in the world in the
    order in which they are made. *)
Inductive call :=
| Call_run_script (script : string)
| Call_check_csv_files (files : list string)
| Call_delete_files (files : list string).

Definition is_delete_files (c : call) : bool :=
  match c with Call_delete_files _ => true | _ => false end.

Record HttpRequest := mkRequest {
  method : string;
  url : string;
  params : list (string * string)
}.

Record HttpResponse := mkResponse {
  body : string;
  status_code : Z
}.

Section Env.

(** The environment: [X] is the state of everything outside the program.
    [spawn argv] is what launching the command [argv] and waiting for it
    does to the environment and the disk; [elapse secs] is what happens to
    them while the program sleeps. *)
Context {X : Type}.
Variable spawn : list string → X → Disk → proc * X * Disk.
Variable elapse : Z → X → Disk → X * Disk.

(** [BASE_DIR], and the two lists read from [project_config.config]. *)
Variable BASE_DIR : string.
Variables scripts csv_files : list string.

Record World := mkWorld {
  disk : Disk;
  ext : X;
  calls : list call;
  logs : list (level * string)
}.

Definition set_env (xd : X * Disk) (w : World) : World :=
  mkWorld xd.2 xd.1 (calls w) (logs w).
Definition set_disk (d : Disk) (w : World) : World :=
  mkWorld d (ext w) (calls w) (logs w).

(** *** Library calls *)

Definition logger (l : level) (msg : string) : M World unit :=
  modify (λ w, mkWorld (disk w) (ext w) (calls w) (logs w ++ [(l, msg)])).

Definition called (c : call) : M World unit :=
  modify (λ w, mkWorld (disk w) (ext w) (calls w ++ [c]) (logs w)).

(** [subprocess.check_call(argv)]: raises [CalledProcessError] on a
    non-zero return code and [OSError] when the process cannot start. *)
Definition subprocess_check_call (argv : list string) : M World unit :=
  λ w, let '(p, x, d) := spawn argv (ext w) (disk w) in
       let w' := set_env (x, d) w in
       match p with
       | CannotStart e => (Raised (OSError e), w')
       | Exited c _ _ =>
           if (c =? 0)%Z then (Returned tt, w')
           else (Raised (CalledProcessError c), w')
       end.

(** [time.sleep(secs)] *)
Definition time_sleep (secs : Z) : M World unit :=
  if (secs <? 0)%Z then raise ValueError
  else modify (λ w, set_env (elapse secs (ext w) (disk w)) w).

Definition os_path_isfile (p : string) : M World bool :=
  λ w, (Returned (isfile (disk w) p), w).

(** [os.remove(p)]: removes a regular file, and raises on a directory and
    on a missing path. *)
Definition os_remove (p : string) : M World unit :=
  λ w, match disk w !! p with
       | Some File => (Returned tt, set_disk (delete p (disk w)) w)
       | Some Dir => (Raised (OSError EISDIR), w)
       | None => (Raised (OSError ENOENT), w)
       end.

(** [os.listdir(dir)], for a directory that exists; the empty path names
    no directory. *)
Definition os_listdir (dir : string) : M World (list string) :=
  λ w, if String.eqb dir "" then (Raised (OSError ENOENT), w)
       else (Returned (listdir (disk w) dir), w).

(** *** The functions of the module *)

Definition get_file_path (filename : string) : string :=
  os_path_join BASE_DIR filename.

Definition run_script (script : string) : M World bool :=
  called (Call_run_script script) >>
  let script_path := get_file_path script in
  try_except
    (logger INFO ("Running " ++ script_path ++ "...") >>
     subprocess_check_call ["python3"; script_path] >>
     logger INFO ("Successfully ran " ++ script_path) >>
     ret true)
    is_CalledProcessError
    (λ e, logger ERROR ("Failed to run " ++ script_path ++ ": " ++ str_exn e) >>
          ret false).

(** [[get_file_path(file) for file in files
      if not os.path.isfile(get_file_path(file))]] *)
Definition missing_files (files : list string) (d : Disk) : list string :=
  filter (λ p, isfile d p = false) (get_file_path <$> files).

(** The loop of [check_csv_files] from attempt number [attempt] on, with
    [n] attempts left. *)
Fixpoint check_csv_files_loop (files : list string) (delay : Z)
    (attempt n : nat) : M World bool :=
  match n with
  | O => ret false
  | S n' =>
      let! w := get in
      let missing := missing_files files (disk w) in
      match missing with
      | [] => ret true
      | _ =>
          logger WARNING ("Attempt " ++ pretty (attempt + 1)%nat
                          ++ ": Missing files: " ++ join_comma missing) >>
          time_sleep delay >>
          check_csv_files_loop files delay (S attempt) n'
      end
  end.

Definition check_csv_files (files : list string) (retries delay : Z)
  : M World bool :=
  called (Call_check_csv_files files) >>
  check_csv_files_loop files delay 0 (Z.to_nat retries).

Definition delete_files (files : list string) : M World unit :=
  called (Call_delete_files files) >>
  let dir_path := BASE_DIR in
  for_each files (λ file,
    let file_path := get_file_path file in
    let! present := os_path_isfile file_path in
    if present then
      os_remove file_path >> logger INFO ("Deleted " ++ file_path)
    else ret tt) >>
  let! names := os_listdir dir_path in
  for_each names (λ file,
    if endswith file ".csv" || endswith file ".xlsx" then
      let file_to_delete := os_path_join dir_path file in
      os_remove file_to_delete >> logger INFO ("Deleted " ++ file_to_delete)
    else ret tt).

(** The [for script in scripts] loop of [run_all_scripts]; its value is
    the value of [success] when the loop is left. *)
Fixpoint run_all_scripts_loop (l : list string) : M World bool :=
  match l with
  | [] => ret true
  | script :: l' =>
      let! ok := run_script script in
      if negb ok then ret false else run_all_scripts_loop l'
  end.

Definition run_all_scripts : M World bool :=
  let! success := run_all_scripts_loop scripts in
  time_sleep 2 >>
  let! present := (if success then check_csv_files csv_files 3 2
                   else ret false) in
  let! success :=
    (if present then
       logger INFO "All scripts ran successfully and all required CSV files are present." >>
       ret success
     else
       logger WARNING "One or more files are missing. Not retrying the scripts." >>
       ret false) in
  delete_files csv_files >>
  ret success.

Definition main (req : HttpRequest) : M World HttpResponse :=
  logger INFO "HTTP trigger function executed at %s" >>
  logger INFO ("Request method: " ++ method req) >>
  logger INFO ("Request URL: " ++ url req) >>
  (match params req with
   | [] => ret tt
   | _ => logger INFO "Query parameters: %s"
   end) >>
  try_except
    (let! success := run_all_scripts in
     if success then
       ret (mkResponse "All scripts executed successfully and all required CSV files are present." 200)
     else
       ret (mkResponse "One or more files are missing. Scripts did not execute as expected." 400))
    is_Exception
    (λ e, logger ERROR ("An error occurred: " ++ str_exn e) >>
          ret (mkResponse "An internal server error occurred." 500)).

(** *** The call record

    [new_calls w w'] is the sequence of calls made between [w] and [w']. *)

Definition new_calls (w w' : World) : list call :=
  drop (length (calls w)) (calls w').

Definition keeps_calls {A} (m : M World A) : Prop :=
  ∀ w, calls (m w).2 = calls w.

Lemma keeps_calls_ret {A} (a : A) : keeps_calls (ret a).
Proof. done. Qed.

Lemma keeps_calls_bind {A B} (m : M World A) (k : A → M World B) :
  keeps_calls m → (∀ a, keeps_calls (k a)) → keeps_calls (bind m k).
Proof.
  intros Hm Hk w. unfold bind. specialize (Hm w).
  destruct (m w) as [[a|e] w1]; simpl in *; [|done].
  by rewrite Hk.
Qed.

Lemma keeps_calls_logger l msg : keeps_calls (logger l msg).
Proof. done. Qed.

Lemma keeps_calls_time_sleep secs : keeps_calls (time_sleep secs).
Proof. intros w. unfold time_sleep. by destruct (secs <? 0)%Z. Qed.

Lemma keeps_calls_os_path_isfile p : keeps_calls (os_path_isfile p).
Proof. done. Qed.

Lemma keeps_calls_os_listdir dir : keeps_calls (os_listdir dir).
Proof. intros w. unfold os_listdir. by destruct (String.eqb dir ""). Qed.

Lemma keeps_calls_os_remove p : keeps_calls (os_remove p).
Proof. intros w. unfold os_remove. by destruct (disk w !! p) as [[]|]. Qed.

Lemma keeps_calls_subprocess_check_call argv :
  keeps_calls (subprocess_check_call argv).
Proof.
  intros w. unfold subprocess_check_call.
  destruct (spawn argv (ext w) (disk w)) as [[[e|c out err] x] d]; simpl;
    [done | by destruct (c =? 0)%Z].
Qed.

Lemma keeps_calls_try_except {A} (m : M World A) handles h :
  keeps_calls m → (∀ e, keeps_calls (h e)) → keeps_calls (try_except m handles h).
Proof.
  intros Hm Hh w. unfold try_except. specialize (Hm w).
  destruct (m w) as [[a|e] w1]; simpl in *; [done|].
  destruct (handles e); simpl; [by rewrite Hh | done].
Qed.

Lemma keeps_calls_for_each {A} (l : list A) (body : A → M World unit) :
  (∀ x, keeps_calls (body x)) → keeps_calls (for_each l body).
Proof.
  intros Hb. induction l as [|x l IH]; simpl; [done|].
  apply keeps_calls_bind; auto.
Qed.

Create HintDb calls discriminated.
Hint Resolve keeps_calls_ret keeps_calls_logger keeps_calls_time_sleep
  keeps_calls_os_path_isfile keeps_calls_os_listdir keeps_calls_os_remove
  keeps_calls_subprocess_check_call : calls.

Ltac keep_calls :=
  repeat first
    [ progress eauto with calls
    | apply keeps_calls_bind; [|intros ?]
    | apply keeps_calls_try_except; [|intros ?]
    | apply keeps_calls_for_each; intros ?
    | match goal with |- keeps_calls (if ?b then _ else _) => destruct b end
    | match goal with |- keeps_calls (match ?l with [] => _ | _ :: _ => _ end) =>
        destruct l end ].

(** A computation that starts by recording the call [c] and records no
    other call adds exactly [c] to the record, whatever its outcome. *)
Lemma calls_called_then {A} c (m : M World A) w :
  keeps_calls m → calls ((called c >> m) w).2 = (calls w ++ [c])%list.
Proof. intros Hm. unfold bind, called, modify. simpl. by rewrite Hm. Qed.

Lemma run_script_calls script w :
  calls (run_script script w).2 = (calls w ++ [Call_run_script script])%list.
Proof. apply calls_called_then. keep_calls. Qed.

Lemma check_csv_files_loop_keeps files delay attempt n :
  keeps_calls (check_csv_files_loop files delay attempt n).
Proof.
  revert attempt. induction n as [|n IH]; intros attempt; simpl; [done|].
  intros w. unfold bind at 1, get.
  destruct (missing_files files (disk w)) as [|p l]; [done|].
  revert w. keep_calls.
Qed.

Lemma check_csv_files_calls files retries delay w :
  calls (check_csv_files files retries delay w).2
  = (calls w ++ [Call_check_csv_files files])%list.
Proof. apply calls_called_then, check_csv_files_loop_keeps. Qed.

Lemma delete_files_calls files w :
  calls (delete_files files w).2 = (calls w ++ [Call_delete_files files])%list.
Proof. apply calls_called_then. keep_calls. Qed.

(** *** The stage executor and the stage loop *)

(** The outcome of [run_script] in terms of what the launched process did. *)
Lemma run_script_result script w :
  (run_script script w).1
  = match (spawn ["python3"; get_file_path script] (ext w) (disk w)).1.1 with
    | CannotStart e => Raised (OSError e)
    | Exited c _ _ => Returned (c =? 0)%Z
    end.
Proof.
  unfold run_script, bind, try_except, called, logger, modify,
    subprocess_check_call, ret; simpl.
  destruct (spawn _ _ _) as [[[e|c out err] x] d]; simpl; [done|].
  by destruct (c =? 0)%Z.
Qed.

Lemma run_all_scripts_loop_app pre l w :
  (run_all_scripts_loop pre w).1 = Returned true →
  run_all_scripts_loop (pre ++ l) w
  = run_all_scripts_loop l (run_all_scripts_loop pre w).2.
Proof.
  revert w. induction pre as [|s pre IH]; intros w; simpl; [done|].
  unfold bind. destruct (run_script s w) as [[[]|e] w1]; simpl; try done.
  apply IH.
Qed.


(** The loop stopped at a stage that did not return [True]. *)
Lemma run_all_scripts_loop_stop script l w :
  (run_script script w).1 ≠ Returned true →
  run_all_scripts_loop (script :: l) w
  = (match (run_script script w).1 with
     | Returned _ => Returned false
     | Raised e => Raised e
     end, (run_script script w).2).
Proof.
  simpl. unfold bind. by destruct (run_script script w) as [[[]|e] w1].
Qed.

(** *** The cleanup sweeper raises nothing but operating-system errors *)

Definition raises_only_OSError {A} (m : M World A) : Prop :=
  ∀ w e, (m w).1 = Raised e → ∃ o, e = OSError o.

Lemma raises_only_OSError_bind {A B} (m : M World A) (k : A → M World B) :
  raises_only_OSError m → (∀ a, raises_only_OSError (k a)) →
  raises_only_OSError (bind m k).
Proof.
  intros Hm Hk w e. unfold bind. specialize (Hm w).
  destruct (m w) as [[a|e'] w1]; simpl in *; [apply Hk |].
  intros [= <-]. by apply Hm.
Qed.

Lemma never_raises_only_OSError {A} (m : M World A) :
  (∀ w, is_returned (m w).1 = true) → raises_only_OSError m.
Proof. intros Hm w e He. specialize (Hm w). by rewrite He in Hm. Qed.

Lemma raises_only_OSError_os_remove p : raises_only_OSError (os_remove p).
Proof.
  intros w e. unfold os_remove.
  destruct (disk w !! p) as [[]|]; simpl; intros [= <-]; eauto.
Qed.

Lemma raises_only_OSError_os_listdir dir : raises_only_OSError (os_listdir dir).
Proof.
  intros w e. unfold os_listdir.
  destruct (String.eqb dir ""); simpl; intros [= <-]; eauto.
Qed.

Lemma raises_only_OSError_for_each {A} (l : list A) (body : A → M World unit) :
  (∀ x, raises_only_OSError (body x)) → raises_only_OSError (for_each l body).
Proof.
  intros Hb. induction l as [|x l IH]; simpl.
  - by apply never_raises_only_OSError.
  - apply raises_only_OSError_bind; auto.
Qed.

Lemma raises_only_OSError_delete_files files :
  raises_only_OSError (delete_files files).
Proof.
  unfold delete_files.
  repeat first
    [ apply raises_only_OSError_os_remove
    | apply raises_only_OSError_os_listdir
    | apply raises_only_OSError_bind; [|intros ?]
    | apply raises_only_OSError_for_each; intros ?
    | match goal with |- raises_only_OSError (if ?b then _ else _) => destruct b end
    | by apply never_raises_only_OSError ].
Qed.

(** *** The artifact verifier *)

Definition env_of (w : World) : X * Disk := (ext w, disk w).

(** The world after [time.sleep(secs)]. *)
Definition slept (secs : Z) (w : World) : World :=
  set_env (elapse secs (ext w) (disk w)) w.

(** The environment after one more [delay], and the environment in which
    attempt number [i] (counted from 0) is made by a verification that
    starts in [w]. *)
Definition wait (delay : Z) (xd : X * Disk) : X * Disk := elapse delay xd.1 xd.2.
Definition at_attempt (delay : Z) (i : nat) (w : World) : X * Disk :=
  Nat.iter i (wait delay) (env_of w).

(** No path of [files] is missing. *)
Definition complete (files : list string) (xd : X * Disk) : Prop :=
  missing_files files xd.2 = [].

(** One attempt of the verifier. *)
Lemma check_csv_files_loop_S files delay attempt n w :
  (0 ≤ delay)%Z →
  check_csv_files_loop files delay attempt (S n) w
  = match missing_files files (disk w) with
    | [] => (Returned true, w)
    | missing =>
        check_csv_files_loop files delay (S attempt) n
          (slept delay
             (logger WARNING ("Attempt " ++ pretty (attempt + 1)%nat
                              ++ ": Missing files: " ++ join_comma missing) w).2)
    end.
Proof.
  intros Hdelay. cbn [check_csv_files_loop]. unfold bind at 1, get.
  destruct (missing_files files (disk w)) as [|p l]; [done|].
  unfold bind at 1, logger at 1, modify. unfold bind at 1, time_sleep.
  destruct (Z.ltb_spec delay 0) as [Hneg|_].
  - lia.
  - reflexivity.
Qed.

Lemma at_attempt_slept delay i w :
  at_attempt delay i (slept delay w) = at_attempt delay (S i) w.
Proof.
  unfold at_attempt. rewrite Nat.iter_succ_r. f_equal.
  unfold env_of, slept, wait, set_env. simpl.
  by destruct (elapse delay (ext w) (disk w)).
Qed.

Lemma check_csv_files_loop_spec files delay n :
  (0 ≤ delay)%Z → ∀ attempt w,
  (∃ i, (i < n)%nat
        ∧ complete files (at_attempt delay i w)
        ∧ (∀ j, (j < i)%nat → ¬ complete files (at_attempt delay j w))
        ∧ (check_csv_files_loop files delay attempt n w).1 = Returned true
        ∧ env_of (check_csv_files_loop files delay attempt n w).2
          = at_attempt delay i w)
  ∨ ((∀ i, (i < n)%nat → ¬ complete files (at_attempt delay i w))
     ∧ (check_csv_files_loop files delay attempt n w).1 = Returned false
     ∧ env_of (check_csv_files_loop files delay attempt n w).2
       = at_attempt delay n w).
Proof.
  intros Hdelay. induction n as [|n IH]; intros attempt w.
  - right. split; [lia | done].
  - rewrite check_csv_files_loop_S by done.
    destruct (missing_files files (disk w)) as [|p l] eqn:Hmiss.
    + left. exists 0%nat. split; [lia|]. split; [done|]. split; [lia | done].
    + set (w1 := (logger _ _ w).2).
      assert (Hshift : ∀ i, at_attempt delay i (slept delay w1)
                            = at_attempt delay (S i) w).
      { intros i. by rewrite at_attempt_slept. }
      assert (H0 : ¬ complete files (at_attempt delay 0 w)).
      { unfold complete. simpl. by rewrite Hmiss. }
      destruct (IH (S attempt) (slept delay w1))
        as [(i & Hi & Hc & Hmin & Hr & He)|(Hnone & Hr & He)].
      * left. exists (S i). rewrite Hshift in Hc, He.
        split; [lia|]. split; [done|]. split; [|done].
        intros [|j] Hj; [done|]. rewrite <- Hshift. apply Hmin. lia.
      * right. rewrite Hshift in He. split; [|done].
        intros [|i] Hi; [done|]. rewrite <- Hshift. apply Hnone. lia.
Qed.

Lemma check_csv_files_spec files retries delay w :
  (0 ≤ delay)%Z →
  let n := Z.to_nat retries in
  (∃ i, (i < n)%nat
        ∧ complete files (at_attempt delay i w)
        ∧ (∀ j, (j < i)%nat → ¬ complete files (at_attempt delay j w))
        ∧ (check_csv_files files retries delay w).1 = Returned true
        ∧ env_of (check_csv_files files retries delay w).2
          = at_attempt delay i w)
  ∨ ((∀ i, (i < n)%nat → ¬ complete files (at_attempt delay i w))
     ∧ (check_csv_files files retries delay w).1 = Returned false
     ∧ env_of (check_csv_files files retries delay w).2
       = at_attempt delay n w).
Proof.
  intros Hdelay n. unfold check_csv_files, bind, called, modify.
  set (w1 := mkWorld _ _ _ _).
  exact (check_csv_files_loop_spec files delay n Hdelay 0%nat w1).
Qed.

(** The verifier never raises. *)
Lemma check_csv_files_returns files retries delay w :
  (0 ≤ delay)%Z → is_returned (check_csv_files files retries delay w).1 = true.
Proof.
  intros Hdelay.
  destruct (check_csv_files_spec files retries delay w Hdelay)
    as [(i & _ & _ & _ & -> & _)|(_ & -> & _)]; done.
Qed.

(** The default policy, in terms of the list of missing files that the
    verifier computes. *)
Lemma check_csv_files_default_complete files w :
  ((check_csv_files files 3 2 w).1 = Returned true
   ↔ ∃ i, (i < 3)%nat ∧ complete files (at_attempt 2 i w))
  ∧ ((check_csv_files files 3 2 w).1 = Returned false
     ↔ ∀ i, (i < 3)%nat → ¬ complete files (at_attempt 2 i w))
  ∧ (∀ i, (i < 3)%nat →
       complete files (at_attempt 2 i w) →
       (∀ j, (j < i)%nat → ¬ complete files (at_attempt 2 j w)) →
       env_of (check_csv_files files 3 2 w).2 = at_attempt 2 i w).
Proof.
  assert (Hdelay : (0 ≤ 2)%Z) by lia.
  destruct (check_csv_files_spec files 3 2 w Hdelay)
    as [(i & Hi & Hc & Hmin & Hr & He)|(Hnone & Hr & He)];
    change (Z.to_nat 3) with 3%nat in *; rewrite Hr.
  - split; [|split].
    + split; [eauto | done].
    + split; [done|]. intros Hnone. by destruct (Hnone i Hi).
    + intros k Hk Hck Hkmin.
      destruct (Nat.lt_trichotomy i k) as [Hlt|[->|Hgt]]; [|done|].
      * by destruct (Hkmin i Hlt).
      * by destruct (Hmin k Hgt).
  - split; [|split].
    + split; [done|]. intros (i & Hi & Hc). by destruct (Hnone i Hi).
    + done.
    + intros i Hi Hc. by destruct (Hnone i Hi).
Qed.

(** Every path of [files], joined with [BASE_DIR], is on the disk as a
    regular file. *)
Definition present (files : list string) (xd : X * Disk) : Prop :=
  ∀ f, f ∈ files → xd.2 !! os_path_join BASE_DIR f = Some File.

(** The list of missing files is empty exactly when every file is on the
    disk. *)
Lemma complete_present files xd : complete files xd ↔ present files xd.
Proof.
  unfold complete, present, missing_files.
  induction files as [|a files IH]; simpl.
  - split; [by intros _ f Hf%elem_of_nil | done].
  - unfold get_file_path at 1, isfile at 1.
    destruct (decide (xd.2 !! os_path_join BASE_DIR a = Some File)) as [Ha|Ha].
    + rewrite filter_cons_False
        by (by rewrite (bool_decide_eq_true_2 _ Ha)).
      rewrite IH. split.
      * intros Hall f [->|Hf]%elem_of_cons; [done | by apply Hall].
      * intros Hall f Hf. apply Hall. by right.
    + rewrite filter_cons_True
        by (by rewrite (bool_decide_eq_false_2 _ Ha)).
      split; [done|]. intros Hall. destruct Ha. apply Hall. by left.
Qed.

(** C2.  With the default policy of 3 attempts and a delay of 2 seconds,
    [check_csv_files] returns [True] if and only if on one of the attempts
    0, 1, 2 (each made one delay after the previous one) every path of
    [files] is on the disk as a regular file, and [False] if and only if on
    each of the three attempts some path is not.  On the first attempt on
    which every path is there it returns at once: the environment it
    returns in is the one in which that attempt was made. *)
Theorem check_csv_files_default_policy files w :
  ((check_csv_files files 3 2 w).1 = Returned true
   ↔ ∃ i, (i < 3)%nat ∧ present files (at_attempt 2 i w))
  ∧ ((check_csv_files files 3 2 w).1 = Returned false
     ↔ ∀ i, (i < 3)%nat → ¬ present files (at_attempt 2 i w))
  ∧ (∀ i, (i < 3)%nat →
       present files (at_attempt 2 i w) →
       (∀ j, (j < i)%nat → ¬ present files (at_attempt 2 j w)) →
       env_of (check_csv_files files 3 2 w).2 = at_attempt 2 i w).
Proof.
  destruct (check_csv_files_default_complete files w) as (Htrue & Hfalse & Hfirst).
  split; [|split].
  - rewrite Htrue. split; intros (i & Hi & Hc); exists i;
      (split; [done | by apply complete_present]).
  - rewrite Hfalse. split; intros Hnone i Hi Hc;
      apply (Hnone i Hi); by apply complete_present.
  - intros i Hi Hc Hmin. apply Hfirst; [done | by apply complete_present |].
    intros j Hj Hcj. apply (Hmin j Hj). by apply complete_present.
Qed.

(** *** The pipeline runner *)



Lemma new_calls_app w w' l :
  calls w' = (calls w ++ l)%list → new_calls w w' = l.
Proof. unfold new_calls. intros ->. by rewrite drop_app_length. Qed.

(** The world after the verdict of [run_all_scripts] has been logged. *)
Definition verdict_logged (present : bool) (w : World) : World :=
  ((if present then
      logger INFO "All scripts ran successfully and all required CSV files are present."
    else
      logger WARNING "One or more files are missing. Not retrying the scripts.") w).2.

(** [run_all_scripts], phase by phase. *)
Lemma run_all_scripts_eq w :
  run_all_scripts w
  = match run_all_scripts_loop scripts w with
    | (Raised e, w1) => (Raised e, w1)
    | (Returned false, w1) =>
        match delete_files csv_files (verdict_logged false (slept 2 w1)) with
        | (Returned _, w2) => (Returned false, w2)
        | (Raised e, w2) => (Raised e, w2)
        end
    | (Returned true, w1) =>
        match check_csv_files csv_files 3 2 (slept 2 w1) with
        | (Raised e, w2) => (Raised e, w2)
        | (Returned present, w2) =>
            match delete_files csv_files (verdict_logged present w2) with
            | (Returned _, w3) => (Returned present, w3)
            | (Raised e, w3) => (Raised e, w3)
            end
        end
    end.
Proof.
  unfold run_all_scripts, bind at 1.
  destruct (run_all_scripts_loop scripts w) as [[[]|e] w1]; [| |done].
  - unfold bind at 1. unfold time_sleep at 1, modify. simpl. fold (slept 2 w1).
    unfold bind at 1.
    destruct (check_csv_files csv_files 3 2 (slept 2 w1)) as [[[]|e] w2];
      [| |done]; unfold bind, logger, modify, verdict_logged, ret; simpl;
      by destruct (delete_files _ _) as [[[]|e] w3].
  - unfold bind, time_sleep, logger, modify, verdict_logged, ret; simpl.
    fold (slept 2 w1). by destruct (delete_files _ _) as [[[]|e] w3].
Qed.

Lemma calls_slept secs w : calls (slept secs w) = calls w.
Proof. done. Qed.

Lemma calls_verdict_logged b w : calls (verdict_logged b w) = calls w.
Proof. by destruct b. Qed.

(** What [run_all_scripts] does once the loop has been left with
    [success = False]: it sleeps, skips the verification, sweeps and
    returns [False]. *)
Lemma run_all_scripts_loop_failed w :
  (run_all_scripts_loop scripts w).1 = Returned false →
  calls (run_all_scripts w).2
  = (calls (run_all_scripts_loop scripts w).2 ++ [Call_delete_files csv_files])%list
  ∧ ((run_all_scripts w).1 = Returned false
     ∨ ∃ o, (run_all_scripts w).1 = Raised (OSError o)).
Proof.
  rewrite run_all_scripts_eq.
  destruct (run_all_scripts_loop scripts w) as [r1 w1]; simpl; intros ->.
  pose proof (delete_files_calls csv_files (verdict_logged false (slept 2 w1))) as Hc.
  pose proof (raises_only_OSError_delete_files csv_files
                (verdict_logged false (slept 2 w1))) as He.
  destruct (delete_files _ _) as [[[]|e] w2]; simpl in *.
  - split; [done | by left].
  - split; [done|]. right. destruct (He e eq_refl) as [o ->]. eauto.
Qed.

Lemma run_all_scripts_loop_raised w e :
  (run_all_scripts_loop scripts w).1 = Raised e →
  run_all_scripts w = (Raised e, (run_all_scripts_loop scripts w).2).
Proof.
  rewrite run_all_scripts_eq.
  destruct (run_all_scripts_loop scripts w) as [r1 w1]; simpl; by intros ->.
Qed.

(** What [run_all_scripts] does once every script has returned [True]: it
    sleeps, verifies, sweeps and returns the verdict of the verifier. *)
Lemma run_all_scripts_loop_succeeded w :
  (run_all_scripts_loop scripts w).1 = Returned true →
  let w1 := (run_all_scripts_loop scripts w).2 in
  calls (run_all_scripts w).2
  = (calls w1 ++ [Call_check_csv_files csv_files; Call_delete_files csv_files])%list
  ∧ ((run_all_scripts w).1 = (check_csv_files csv_files 3 2 (slept 2 w1)).1
     ∨ ∃ o, (run_all_scripts w).1 = Raised (OSError o)).
Proof.
  rewrite run_all_scripts_eq.
  destruct (run_all_scripts_loop scripts w) as [r1 w1]; simpl; intros ->.
  pose proof (check_csv_files_calls csv_files 3 2 (slept 2 w1)) as Hv.
  pose proof (check_csv_files_returns csv_files 3 2 (slept 2 w1)) as Hr.
  destruct (check_csv_files csv_files 3 2 (slept 2 w1)) as [[present|e] w2];
    simpl in *; [|by discriminate Hr].
  pose proof (delete_files_calls csv_files (verdict_logged present w2)) as Hc.
  pose proof (raises_only_OSError_delete_files csv_files
                (verdict_logged present w2)) as He.
  rewrite calls_verdict_logged, Hv in Hc.
  destruct (delete_files _ _) as [[[]|e] w3]; simpl in *;
    rewrite Hc, <- app_assoc; (split; [done|]).
  - by left.
  - right. destruct (He e eq_refl) as [o ->]. eauto.
Qed.

Definition sweeper_calls (l : list call) : list call :=
  filter (λ c, is_delete_files c = true) l.


(** *** Launch failures *)

(** C4.  When the process of a stage cannot be started, [run_script] of
    [HttpTrigger1/__init__.py] does not return [False]: the [OSError] of
    the launch is not a [CalledProcessError], so it leaves [run_script],
    and when the stage is reached it leaves [run_all_scripts] too. *)
Theorem run_script_launch_failure_escapes k script w o :
  scripts !! k = Some script →
  (run_all_scripts_loop (take k scripts) w).1 = Returned true →
  let w1 := (run_all_scripts_loop (take k scripts) w).2 in
  (spawn ["python3"; get_file_path script] (ext w1) (disk w1)).1.1 = CannotStart o →
  (run_script script w1).1 = Raised (OSError o)
  ∧ (run_all_scripts w).1 = Raised (OSError o).
Proof.
  intros Hk Hpre w1 Hspawn.
  assert (Hr : (run_script script w1).1 = Raised (OSError o))
    by (by rewrite run_script_result, Hspawn).
  split; [done|].
  rewrite (run_all_scripts_loop_raised w (OSError o)); [done|].
  rewrite <- (take_drop_middle scripts k script Hk).
  rewrite run_all_scripts_loop_app by done.
  rewrite run_all_scripts_loop_stop; fold w1; by rewrite Hr.
Qed.

(** *** The cleanup sweeper within a run *)

(** Whatever its outcome, the stage loop records calls of [run_script]
    only. *)
Lemma run_all_scripts_loop_calls_only l w :
  ∃ l', calls (run_all_scripts_loop l w).2
        = (calls w ++ (Call_run_script <$> l'))%list.
Proof.
  revert w. induction l as [|s l IH]; intros w; simpl.
  - exists []. by rewrite app_nil_r.
  - unfold bind. pose proof (run_script_calls s w) as Hs.
    destruct (run_script s w) as [[[]|e] w1]; simpl in *.
    + destruct (IH w1) as [l' Hl']. exists (s :: l').
      by rewrite Hl', Hs, <- app_assoc.
    + by exists [s].
    + by exists [s].
Qed.

Lemma sweeper_calls_fmap (l : list string) :
  sweeper_calls (Call_run_script <$> l) = [].
Proof.
  induction l as [|x l IH]; [done|]. unfold sweeper_calls in *.
  rewrite fmap_cons, filter_cons_False; [done | by intros [=]].
Qed.

(** The run sweeps exactly once, as its last call, unless a stage raises;
    when a stage raises it does not sweep at all. *)
Lemma run_all_scripts_sweeps w :
  sweeper_calls (new_calls w (run_all_scripts w).2)
  = match (run_all_scripts_loop scripts w).1 with
    | Returned _ => [Call_delete_files csv_files]
    | Raised _ => []
    end.
Proof.
  destruct (run_all_scripts_loop_calls_only scripts w) as [l Hl].
  destruct (run_all_scripts_loop scripts w).1 as [[]|e] eqn:Hr.
  - destruct (run_all_scripts_loop_succeeded w Hr) as [Hc _].
    rewrite Hl, <- app_assoc in Hc.
    rewrite (new_calls_app _ _ _ Hc). unfold sweeper_calls.
    rewrite filter_app. fold (sweeper_calls (Call_run_script <$> l)).
    by rewrite sweeper_calls_fmap.
  - destruct (run_all_scripts_loop_failed w Hr) as [Hc _].
    rewrite Hl, <- app_assoc in Hc.
    rewrite (new_calls_app _ _ _ Hc). unfold sweeper_calls.
    rewrite filter_app. fold (sweeper_calls (Call_run_script <$> l)).
    by rewrite sweeper_calls_fmap.
  - rewrite (run_all_scripts_loop_raised w e Hr). simpl.
    by rewrite (new_calls_app _ _ _ Hl), sweeper_calls_fmap.
Qed.

(** C5.  When the process of a reached stage cannot be started, the run
    ends with the exception of the launch and the cleanup sweeper is not
    invoked. *)
Theorem run_all_scripts_launch_failure_skips_sweep k script w o :
  scripts !! k = Some script →
  (run_all_scripts_loop (take k scripts) w).1 = Returned true →
  let w1 := (run_all_scripts_loop (take k scripts) w).2 in
  (spawn ["python3"; get_file_path script] (ext w1) (disk w1)).1.1 = CannotStart o →
  (run_all_scripts w).1 = Raised (OSError o)
  ∧ sweeper_calls (new_calls w (run_all_scripts w).2) = [].
Proof.
  intros Hk Hpre w1 Hspawn.
  assert (Hr : (run_script script w1).1 = Raised (OSError o))
    by (by rewrite run_script_result, Hspawn).
  assert (Hl : (run_all_scripts_loop scripts w).1 = Raised (OSError o)).
  { rewrite <- (take_drop_middle scripts k script Hk).
    rewrite run_all_scripts_loop_app by done.
    rewrite run_all_scripts_loop_stop; fold w1; by rewrite Hr. }
  split; [by rewrite (run_all_scripts_loop_raised w _ Hl)|].
  by rewrite run_all_scripts_sweeps, Hl.
Qed.

(** *** The request/response gateway *)

(** The world in which [main] enters its [try] block: the request has been
    logged. *)
Definition request_logged (req : HttpRequest) (w : World) : World :=
  ((logger INFO "HTTP trigger function executed at %s" >>
    logger INFO ("Request method: " ++ method req) >>
    logger INFO ("Request URL: " ++ url req) >>
    match params req with
    | [] => ret tt
    | _ => logger INFO "Query parameters: %s"
    end) w).2.

(** [main] always returns a response, whose status is decided by the
    outcome of [run_all_scripts]. *)
Lemma main_status req w :
  ∃ resp, (main req w).1 = Returned resp
    ∧ status_code resp
      = match (run_all_scripts (request_logged req w)).1 with
        | Returned true => 200
        | Returned false => 400
        | Raised _ => 500
        end.
Proof.
  unfold main, request_logged, bind, logger, modify, try_except, ret. simpl.
  destruct (params req) as [|? ?]; simpl;
    destruct (run_all_scripts _) as [[[]|e] w1]; simpl; eauto.
Qed.

(** A reached stage whose process cannot be started ends the run with the
    error of the launch. *)
Lemma run_all_scripts_launch_failure k script w o :
  scripts !! k = Some script →
  (run_all_scripts_loop (take k scripts) w).1 = Returned true →
  (spawn ["python3"; get_file_path script]
     (ext (run_all_scripts_loop (take k scripts) w).2)
     (disk (run_all_scripts_loop (take k scripts) w).2)).1.1 = CannotStart o →
  (run_all_scripts w).1 = Raised (OSError o).
Proof.
  intros Hk Hpre Hspawn.
  assert (Hr : (run_script script (run_all_scripts_loop (take k scripts) w).2).1
               = Raised (OSError o))
    by (by rewrite run_script_result, Hspawn).
  rewrite (run_all_scripts_loop_raised w (OSError o)); [done|].
  rewrite <- (take_drop_middle scripts k script Hk).
  rewrite run_all_scripts_loop_app by done.
  rewrite run_all_scripts_loop_stop; by rewrite Hr.
Qed.

(** C7.  When the process of a reached stage cannot be started, [main]
    answers with status 500, the status of an internal error, and not with
    the status 400 of a stage that failed: the error of the launch leaves
    [run_all_scripts] and is caught by the [except Exception] clause of
    [main]. *)
Theorem main_launch_failure_is_server_error req k script w o :
  let w0 := request_logged req w in
  scripts !! k = Some script →
  (run_all_scripts_loop (take k scripts) w0).1 = Returned true →
  let w1 := (run_all_scripts_loop (take k scripts) w0).2 in
  (spawn ["python3"; get_file_path script] (ext w1) (disk w1)).1.1 = CannotStart o →
  ∃ resp, (main req w).1 = Returned resp
    ∧ status_code resp = 500
    ∧ status_code resp ≠ 400.
Proof.
  intros w0 Hk Hpre w1 Hspawn.
  destruct (main_status req w) as (resp & Hresp & Hstatus).
  exists resp. split; [done|]. fold w0 in Hstatus.
  rewrite (run_all_scripts_launch_failure k script w0 o Hk Hpre Hspawn) in Hstatus.
  by rewrite Hstatus.
Qed.

(** *** Paths and directory listings *)

Lemma string_app_nil_r (s : string) : s ++ "" = s.
Proof.
  induction s as [|a s IH]; [done|].
  change (String a (s ++ "") = String a s). by rewrite IH.
Qed.

Lemma string_app_assoc (s1 s2 s3 : string) : (s1 ++ s2) ++ s3 = s1 ++ s2 ++ s3.
Proof.
  induction s1 as [|a s1 IH]; [done|].
  change (String a ((s1 ++ s2) ++ s3) = String a (s1 ++ s2 ++ s3)).
  by rewrite IH.
Qed.

Lemma strip_prefix_Some p s n : strip_prefix p s = Some n → s = p ++ n.
Proof.
  revert s. induction p as [|a p IH]; intros s; simpl.
  - by intros [= ->].
  - destruct s as [|b s]; [done|].
    destruct (Ascii.eqb_spec a b) as [->|]; [|done].
    intros Hs. rewrite (IH _ Hs). done.
Qed.

Lemma startswith_slash n : has_slash n = false → startswith n "/" = false.
Proof.
  destruct n as [|a n]; [done|]. unfold startswith.
  cbn [has_slash String.prefix].
  destruct (ascii_dec "/" a) as [<-|Hne]; [|done].
  by rewrite Ascii.eqb_refl.
Qed.

(** The path of the entry listed as [n] in [dir]. *)
Lemma os_path_join_entry dir n :
  has_slash n = false → os_path_join dir n = os_path_join dir "" ++ n.
Proof.
  intros Hn. unfold os_path_join. rewrite (startswith_slash n Hn).
  change (startswith "" "/") with false. cbv iota.
  destruct (_ || _).
  - by rewrite string_app_nil_r.
  - by rewrite string_app_assoc.
Qed.

Lemma entry_name_Some dir p n :
  entry_name dir p = Some n → os_path_join dir n = p.
Proof.
  unfold entry_name.
  destruct (strip_prefix _ p) as [m|] eqn:Hp; [|done].
  destruct (negb (String.eqb m "")); [|done]. simpl.
  destruct (has_slash m) eqn:Hm; [done|]. simpl. intros [= <-].
  by rewrite os_path_join_entry, (strip_prefix_Some _ _ _ Hp).
Qed.

Lemma elem_of_listdir (d : Disk) dir n :
  n ∈ listdir d dir ↔ ∃ p, is_Some (d !! p) ∧ entry_name dir p = Some n.
Proof.
  unfold listdir. rewrite list_elem_of_omap. split.
  - intros (p & Hp & Hn). exists p. split; [|done].
    apply list_elem_of_fmap in Hp as ([p' k] & -> & Hpk).
    apply elem_of_map_to_list in Hpk. eauto.
  - intros (p & [k Hk] & Hn). exists p. split; [|done].
    apply list_elem_of_fmap. exists (p, k). split; [done|].
    by apply elem_of_map_to_list.
Qed.

Lemma NoDup_omap_inj {A B} (f : A → option B) (l : list A) :
  (∀ x y b, f x = Some b → f y = Some b → x = y) →
  NoDup l → NoDup (omap f l).
Proof.
  intros Hinj. induction 1 as [|x l Hx Hl IH]; simpl; [constructor|].
  destruct (f x) as [b|] eqn:Hb; [|done].
  constructor; [|done]. rewrite list_elem_of_omap.
  intros (y & Hy & Hfy). by rewrite (Hinj x y b Hb Hfy) in Hx.
Qed.

Lemma NoDup_listdir (d : Disk) dir : NoDup (listdir d dir).
Proof.
  apply NoDup_omap_inj, NoDup_fst_map_to_list.
  intros p q n Hp Hq.
  by rewrite <- (entry_name_Some _ _ _ Hp), <- (entry_name_Some _ _ _ Hq).
Qed.

(** Every listed name is the name of an entry of the disk, at the path
    that [os.path.join] gives it. *)
Lemma listdir_present (d : Disk) dir n :
  n ∈ listdir d dir →
  is_Some (d !! os_path_join dir n)
  ∧ entry_name dir (os_path_join dir n) = Some n.
Proof.
  rewrite elem_of_listdir. intros (p & Hp & Hn).
  by rewrite (entry_name_Some _ _ _ Hn).
Qed.

(** *** The cleanup sweeper *)

(** A name with a tracked output extension. *)
Definition tracked (file : string) : bool :=
  endswith file ".csv" || endswith file ".xlsx".

(** The two loops of [delete_files]. *)
Definition remove_expected (files : list string) : M World unit :=
  for_each files (λ file,
    let file_path := get_file_path file in
    let! present := os_path_isfile file_path in
    if present then
      os_remove file_path >> logger INFO ("Deleted " ++ file_path)
    else ret tt).

Definition remove_tracked (names : list string) : M World unit :=
  for_each names (λ file,
    if tracked file then
      let file_to_delete := os_path_join BASE_DIR file in
      os_remove file_to_delete >> logger INFO ("Deleted " ++ file_to_delete)
    else ret tt).

Lemma delete_files_eq files w :
  delete_files files w
  = match remove_expected files ((called (Call_delete_files files) w).2) with
    | (Returned _, w1) =>
        if String.eqb BASE_DIR "" then (Raised (OSError ENOENT), w1)
        else remove_tracked (listdir (disk w1) BASE_DIR) w1
    | (Raised e, w1) => (Raised e, w1)
    end.
Proof.
  unfold delete_files, bind at 1, called, modify. simpl.
  unfold bind at 1. fold (remove_expected files).
  destruct (remove_expected files _) as [[[]|e] w1]; [|done].
  unfold bind, os_listdir. by destruct (String.eqb BASE_DIR "").
Qed.

Lemma BASE_DIR_eqb : BASE_DIR ≠ "" → String.eqb BASE_DIR "" = false.
Proof. intros Hne. by apply String.eqb_neq. Qed.

(** The first loop removes the expected files that exist as regular
    files, and nothing else; it never raises. *)
Lemma remove_expected_spec files w :
  ∃ w', remove_expected files w = (Returned tt, w')
    ∧ disk w' ⊆ disk w
    ∧ (∀ p, disk w !! p = Some Dir → disk w' !! p = Some Dir)
    ∧ (∀ f, f ∈ files → disk w' !! get_file_path f ≠ Some File)
    ∧ ((∀ f, f ∈ files → disk w !! get_file_path f ≠ Some File) →
       disk w' = disk w).
Proof.
  revert w. induction files as [|a files IH]; intros w.
  - exists w. split; [done|]. split; [done|]. split; [done|].
    split; [|done]. by intros f Hf%elem_of_nil.
  - cbn [remove_expected for_each]. fold (remove_expected files).
    unfold bind at 1. unfold bind at 1, os_path_isfile, isfile.
    destruct (decide (disk w !! get_file_path a = Some File)) as [Ha|Ha].
    + rewrite (bool_decide_eq_true_2 _ Ha).
      unfold bind at 1, os_remove. rewrite Ha. unfold logger, modify.
      cbn [fst snd]. set (w1 := mkWorld _ _ _ _).
      destruct (IH w1) as (w' & -> & Hsub & Hdir & Hfiles & _).
      exists w'. split; [done|].
      assert (Hdel : disk w1 ⊆ disk w) by apply delete_subseteq.
      split; [by etrans|]. split; [|split].
      * intros p Hp. apply Hdir. unfold w1. simpl.
        rewrite lookup_delete_ne; [done | congruence].
      * intros f [->|Hf]%elem_of_cons; [|by apply Hfiles].
        intros Hf. eapply lookup_weaken in Hf; [|exact Hsub].
        unfold w1 in Hf. simpl in Hf. by rewrite lookup_delete_eq in Hf.
      * intros Hnone. destruct (Hnone a); [left | done].
    + rewrite (bool_decide_eq_false_2 _ Ha). unfold ret at 1.
      destruct (IH w) as (w' & -> & Hsub & Hdir & Hfiles & Hid).
      exists w'. split; [done|]. split; [done|]. split; [done|]. split.
      * intros f [->|Hf]%elem_of_cons; [|by apply Hfiles].
        intros Hf. eapply lookup_weaken in Hf; [|exact Hsub]. done.
      * intros Hnone. apply Hid. intros f Hf. apply Hnone. by right.
Qed.

(** Names listed in [BASE_DIR]: pairwise distinct, each the name of the
    entry at its joined path. *)
Definition listed (names : list string) : Prop :=
  NoDup names
  ∧ ∀ n, n ∈ names → entry_name BASE_DIR (os_path_join BASE_DIR n) = Some n.

Lemma listed_cons a names :
  listed (a :: names) →
  listed names
  ∧ ∀ n, n ∈ names → os_path_join BASE_DIR n ≠ os_path_join BASE_DIR a.
Proof.
  intros [[Ha Hnd]%NoDup_cons Hname]. split.
  - split; [done|]. intros n Hn. apply Hname. by right.
  - intros n Hn Heq.
    assert (Some n = Some a) as [= ->]; [|done].
    rewrite <- (Hname n), <- (Hname a), Heq; [done | by left | by right].
Qed.

Lemma listed_listdir (d : Disk) : listed (listdir d BASE_DIR).
Proof.
  split; [apply NoDup_listdir|]. intros n Hn.
  by destruct (listdir_present d BASE_DIR n Hn).
Qed.

(** The second loop, when every tracked name is a regular file: it removes
    them all. *)
Lemma remove_tracked_spec names w :
  listed names →
  (∀ n, n ∈ names → tracked n = true →
        disk w !! os_path_join BASE_DIR n = Some File) →
  ∃ w', remove_tracked names w = (Returned tt, w')
    ∧ disk w' ⊆ disk w
    ∧ (∀ n, n ∈ names → tracked n = true →
            disk w' !! os_path_join BASE_DIR n = None)
    ∧ ((∀ n, n ∈ names → tracked n = false) → disk w' = disk w).
Proof.
  revert w. induction names as [|a names IH]; intros w Hl Hfile.
  - exists w. split; [done|]. split; [done|]. split; [|done].
    by intros n Hn%elem_of_nil.
  - apply listed_cons in Hl as [Hl Hne].
    cbn [remove_tracked for_each]. fold (remove_tracked names).
    unfold bind at 1. destruct (tracked a) eqn:Ha.
    + unfold bind at 1, os_remove. rewrite (Hfile a) by (done || by left).
      unfold logger, modify. cbn [fst snd]. set (w1 := mkWorld _ _ _ _).
      destruct (IH w1 Hl) as (w' & -> & Hsub & Hgone & _).
      { intros n Hn Ht. unfold w1. simpl.
        rewrite lookup_delete_ne by (by apply not_eq_sym, Hne).
        apply Hfile; [by right | done]. }
      exists w'. split; [done|].
      assert (Hdel : disk w1 ⊆ disk w) by apply delete_subseteq.
      split; [by etrans|]. split.
      * intros n [->|Hn]%elem_of_cons Ht; [|by apply Hgone].
        eapply lookup_weaken_None; [|exact Hsub].
        unfold w1. simpl. apply lookup_delete_eq.
      * intros Hnone. by rewrite (Hnone a) in Ha by left.
    + unfold ret at 1.
      destruct (IH w Hl) as (w' & -> & Hsub & Hgone & Hid).
      { intros n Hn Ht. apply Hfile; [by right | done]. }
      exists w'. split; [done|]. split; [done|]. split.
      * intros n [->|Hn]%elem_of_cons Ht; [congruence | by apply Hgone].
      * intros Hnone. apply Hid. intros n Hn. apply Hnone. by right.
Qed.

(** The second loop, when a tracked name is a directory: [os.remove]
    raises on it, or on a tracked directory listed before it. *)
Lemma remove_tracked_raises names w :
  listed names →
  (∀ n, n ∈ names → is_Some (disk w !! os_path_join BASE_DIR n)) →
  (∃ n, n ∈ names ∧ tracked n = true
        ∧ disk w !! os_path_join BASE_DIR n = Some Dir) →
  (remove_tracked names w).1 = Raised (OSError EISDIR).
Proof.
  revert w. induction names as [|a names IH]; intros w Hl Hpres (n & Hn & Ht & Hd).
  - by apply elem_of_nil in Hn.
  - apply listed_cons in Hl as [Hl Hne].
    cbn [remove_tracked for_each]. fold (remove_tracked names).
    unfold bind at 1. destruct (tracked a) eqn:Ha.
    + unfold bind at 1, os_remove.
      destruct (Hpres a) as [[|] Hk]; [by left | |]; rewrite Hk; [|done].
      unfold logger, modify. cbn [fst snd]. set (w1 := mkWorld _ _ _ _).
      assert (Hother : ∀ m, m ∈ names →
                disk w1 !! os_path_join BASE_DIR m
                = disk w !! os_path_join BASE_DIR m).
      { intros m Hm. unfold w1. simpl.
        by rewrite lookup_delete_ne by (by apply not_eq_sym, Hne). }
      apply IH; [done | |].
      * intros m Hm. rewrite Hother by done. apply Hpres. by right.
      * apply elem_of_cons in Hn as [->|Hn]; [congruence|].
        exists n. by rewrite Hother.
    + unfold ret at 1. apply IH; [done | |].
      * intros m Hm. apply Hpres. by right.
      * apply elem_of_cons in Hn as [->|Hn]; [congruence|]. eauto.
Qed.

Lemma listdir_mono (d1 d2 : Disk) dir n :
  d1 ⊆ d2 → n ∈ listdir d1 dir → n ∈ listdir d2 dir.
Proof.
  intros Hsub. rewrite !elem_of_listdir. intros (p & [k Hk] & Hn).
  exists p. split; [|done]. exists k. by eapply lookup_weaken.
Qed.

(** C8.  When the working directory [BASE_DIR] holds a directory whose name
    has a tracked extension, [delete_files] raises [IsADirectoryError]: the
    second loop hands the name to [os.remove] without the [isfile] check
    of the first loop. *)
Theorem delete_files_raises_on_tracked_directory files w n :
  BASE_DIR ≠ "" →
  n ∈ listdir (disk w) BASE_DIR →
  tracked n = true →
  disk w !! os_path_join BASE_DIR n = Some Dir →
  (delete_files files w).1 = Raised (OSError EISDIR).
Proof.
  intros Hbase Hn Ht Hd. rewrite delete_files_eq.
  set (w0 := (called (Call_delete_files files) w).2).
  destruct (remove_expected_spec files w0) as (w1 & -> & Hsub & Hdir & _).
  rewrite (BASE_DIR_eqb Hbase). apply remove_tracked_raises.
  - apply listed_listdir.
  - intros m Hm. by destruct (listdir_present _ _ _ Hm).
  - exists n. split; [|split; [done|by apply Hdir]].
    apply elem_of_listdir. exists (os_path_join BASE_DIR n).
    split; [by rewrite (Hdir _ Hd)|].
    by destruct (listdir_present _ _ _ Hn).
Qed.


(** *** Further properties of the pipeline *)

(** [run_script] launches [python3] on the joined path of the script.  It
    returns [True] exactly when the process exits with status 0 and [False]
    exactly when it exits with another status; it raises exactly when the
    process cannot be started, and then raises the error of the launch.
    Apart from what the process does, it leaves the environment and the
    disk as they are. *)
Theorem run_script_outcome script w :
  let p := spawn ["python3"; get_file_path script] (ext w) (disk w) in
  ((run_script script w).1 = Returned true ↔ ∃ out err, p.1.1 = Exited 0 out err)
  ∧ ((run_script script w).1 = Returned false
     ↔ ∃ c out err, c ≠ 0%Z ∧ p.1.1 = Exited c out err)
  ∧ (∀ e, (run_script script w).1 = Raised e
          ↔ ∃ o, e = OSError o ∧ p.1.1 = CannotStart o)
  ∧ env_of (run_script script w).2 = (p.1.2, p.2).
Proof.
  cbv zeta. rewrite run_script_result.
  unfold run_script, bind, try_except, called, logger, modify,
    subprocess_check_call, ret, env_of; simpl.
  destruct (spawn _ _ _) as [[[o|c out err] x] d]; simpl.
  - split; [|split; [|split; [|done]]].
    + split; [done | by intros (? & ? & ?)].
    + split; [done | by intros (? & ? & ? & ? & ?)].
    + intros e. split; [intros [= <-]; eauto | by intros (? & -> & [= ->])].
  - destruct (Z.eqb_spec c 0) as [->|Hc]; simpl.
    + split; [|split; [|split; [|done]]].
      * split; [eauto | done].
      * split; [done | by intros (? & ? & ? & ? & [= <- _ _])].
      * intros e. split; [done | by intros (? & _ & ?)].
    + split; [|split; [|split; [|done]]].
      * split; [done | by intros (? & ? & [= -> _ _])].
      * split; [eauto 10 | done].
      * intros e. split; [done | by intros (? & _ & ?)].
Qed.


(** In every run in which no script raises, whether the scripts and the
    verification succeed or not, the sweeper is invoked exactly once, on
    the expected files, and it is the last call of the run. *)
Theorem run_all_scripts_sweeps_once w :
  is_returned (run_all_scripts_loop scripts w).1 = true →
  sweeper_calls (new_calls w (run_all_scripts w).2)
  = [Call_delete_files csv_files]
  ∧ last (calls (run_all_scripts w).2) = Some (Call_delete_files csv_files).
Proof.
  intros Hl. split.
  - rewrite run_all_scripts_sweeps.
    by destruct (run_all_scripts_loop scripts w).1.
  - destruct (run_all_scripts_loop scripts w).1 as [[]|e] eqn:Hr; [| |done].
    + destruct (run_all_scripts_loop_succeeded w Hr) as [-> _].
      by rewrite last_app.
    + destruct (run_all_scripts_loop_failed w Hr) as [-> _].
      by rewrite last_snoc.
Qed.

(** The second loop, when it returns: every tracked name it was given is
    gone. *)
Lemma remove_tracked_returned names w w' :
  listed names →
  remove_tracked names w = (Returned tt, w') →
  disk w' ⊆ disk w
  ∧ ∀ n, n ∈ names → tracked n = true →
         disk w' !! os_path_join BASE_DIR n = None.
Proof.
  revert w. induction names as [|a names IH]; intros w Hl.
  - intros [= <-]. split; [done|]. by intros n Hn%elem_of_nil.
  - apply listed_cons in Hl as [Hl Hne].
    cbn [remove_tracked for_each]. fold (remove_tracked names).
    unfold bind at 1. destruct (tracked a) eqn:Ha.
    + unfold bind at 1, os_remove.
      destruct (disk w !! os_path_join BASE_DIR a) as [[|]|]; [|done..].
      unfold logger, modify. cbn [fst snd]. set (w1 := mkWorld _ _ _ _).
      intros Hrun. destruct (IH w1 Hl Hrun) as [Hsub Hgone].
      assert (Hdel : disk w1 ⊆ disk w) by apply delete_subseteq.
      split; [by etrans|].
      intros n [->|Hn]%elem_of_cons Ht; [|by apply Hgone].
      eapply lookup_weaken_None; [|exact Hsub].
      unfold w1. simpl. apply lookup_delete_eq.
    + unfold ret at 1. intros Hrun. destruct (IH w Hl Hrun) as [Hsub Hgone].
      split; [done|].
      intros n [->|Hn]%elem_of_cons Ht; [congruence | by apply Hgone].
Qed.

(** What a returning [delete_files] leaves. *)
Lemma delete_files_returned files w :
  (delete_files files w).1 = Returned tt →
  BASE_DIR ≠ ""
  ∧ (∀ f, f ∈ files →
          disk (delete_files files w).2 !! get_file_path f ≠ Some File)
  ∧ (∀ n, n ∈ listdir (disk (delete_files files w).2) BASE_DIR →
          tracked n = false).
Proof.
  rewrite delete_files_eq.
  set (w0 := (called (Call_delete_files files) w).2).
  destruct (remove_expected_spec files w0) as (w1 & -> & _ & _ & Hexp & _).
  destruct (String.eqb_spec BASE_DIR "") as [|Hbase]; [done|].
  destruct (remove_tracked (listdir (disk w1) BASE_DIR) w1) as [r w2] eqn:Hrun.
  simpl. intros ->.
  destruct (remove_tracked_returned _ _ _ (listed_listdir (disk w1)) Hrun)
    as [Hsub Hgone].
  split; [done|]. split.
  - intros f Hf Hk. by apply (Hexp f Hf), (lookup_weaken _ _ _ _ Hk Hsub).
  - intros n Hn. destruct (tracked n) eqn:Ht; [|done].
    destruct (listdir_present _ _ _ Hn) as [[k Hk] _].
    rewrite (Hgone n) in Hk; [done | | done].
    by apply (listdir_mono (disk w2)).
Qed.

(** Whenever [delete_files] returns, whatever the disk was, no expected
    file is left as a regular file and no name with a tracked extension is
    left in [BASE_DIR]; and a second call then returns too, without
    changing the disk. *)
Theorem delete_files_returns_clean files w :
  (delete_files files w).1 = Returned tt →
  let w' := (delete_files files w).2 in
  (∀ f, f ∈ files → isfile (disk w') (get_file_path f) = false)
  ∧ (∀ n, n ∈ listdir (disk w') BASE_DIR → tracked n = false)
  ∧ (delete_files files w').1 = Returned tt
  ∧ disk (delete_files files w').2 = disk w'.
Proof.
  intros Hret. cbv zeta.
  destruct (delete_files_returned files w Hret) as (Hbase & Hnofile & Hclean).
  set (w2 := (delete_files files w).2) in *.
  split; [|split; [done|]].
  { intros f Hf. by apply bool_decide_eq_false_2, Hnofile. }
  rewrite delete_files_eq.
  set (w3 := (called (Call_delete_files files) w2).2).
  destruct (remove_expected_spec files w3) as (w4 & -> & _ & _ & _ & Hid1).
  specialize (Hid1 Hnofile). rewrite (BASE_DIR_eqb Hbase).
  destruct (remove_tracked_spec (listdir (disk w4) BASE_DIR) w4)
    as (w5 & -> & _ & _ & Hid2); [apply listed_listdir | |].
  { intros n Hn Ht. rewrite Hid1 in Hn. by rewrite (Hclean n Hn) in Ht. }
  split; [done|]. cbn [snd]. rewrite Hid2; [done|].
  intros n Hn. apply Hclean. by rewrite Hid1 in Hn.
Qed.

(** Whenever [run_all_scripts] returns, with [True] as with [False], the
    expected files have been deleted. *)
Lemma run_all_scripts_returned_clean w b :
  (run_all_scripts w).1 = Returned b →
  (∀ f, f ∈ csv_files →
        disk (run_all_scripts w).2 !! get_file_path f ≠ Some File)
  ∧ (∀ n, n ∈ listdir (disk (run_all_scripts w).2) BASE_DIR → tracked n = false).
Proof.
  rewrite run_all_scripts_eq.
  destruct (run_all_scripts_loop scripts w) as [[[]|e] w1]; [| |done].
  - destruct (check_csv_files csv_files 3 2 (slept 2 w1)) as [[present|e] w2];
      [|done].
    pose proof (delete_files_returned csv_files (verdict_logged present w2))
      as Hclean.
    destruct (delete_files csv_files (verdict_logged present w2)) as [[[]|e] w3];
      [|done].
    intros _. by apply Hclean.
  - pose proof (delete_files_returned csv_files
                  (verdict_logged false (slept 2 w1))) as Hclean.
    destruct (delete_files csv_files _) as [[[]|e] w3]; [|done].
    intros _. by apply Hclean.
Qed.

(** One round of each loop of [delete_files]. *)
Lemma remove_expected_cons a files w :
  remove_expected (a :: files) w
  = remove_expected files
      (if isfile (disk w) (get_file_path a) then
         (logger INFO ("Deleted " ++ get_file_path a)
            (set_disk (delete (get_file_path a) (disk w)) w)).2
       else w).
Proof.
  cbn [remove_expected for_each]. fold (remove_expected files).
  unfold bind at 1. unfold bind at 1, os_path_isfile, isfile.
  destruct (decide (disk w !! get_file_path a = Some File)) as [Ha|Ha].
  - rewrite (bool_decide_eq_true_2 _ Ha).
    unfold bind at 1, os_remove. by rewrite Ha.
  - by rewrite (bool_decide_eq_false_2 _ Ha).
Qed.

Lemma remove_tracked_cons a names w :
  remove_tracked (a :: names) w
  = if tracked a then
      match disk w !! os_path_join BASE_DIR a with
      | Some File =>
          remove_tracked names
            (logger INFO ("Deleted " ++ os_path_join BASE_DIR a)
               (set_disk (delete (os_path_join BASE_DIR a) (disk w)) w)).2
      | Some Dir => (Raised (OSError EISDIR), w)
      | None => (Raised (OSError ENOENT), w)
      end
    else remove_tracked names w.
Proof.
  cbn [remove_tracked for_each]. fold (remove_tracked names).
  unfold bind at 1. destruct (tracked a); [|done].
  unfold bind at 1, os_remove.
  by destruct (disk w !! os_path_join BASE_DIR a) as [[|]|].
Qed.

(** The loops of [delete_files] only remove, and only what they name. *)
Lemma remove_expected_frame files w :
  ext (remove_expected files w).2 = ext w
  ∧ ∀ p, p ∉ get_file_path <$> files →
         disk (remove_expected files w).2 !! p = disk w !! p.
Proof.
  revert w. induction files as [|a files IH]; intros w; [done|].
  rewrite remove_expected_cons.
  destruct (IH (if isfile (disk w) (get_file_path a) then
                  (logger INFO ("Deleted " ++ get_file_path a)
                     (set_disk (delete (get_file_path a) (disk w)) w)).2
                else w)) as [-> Hother].
  split; [by destruct (isfile _ _)|].
  intros p Hp. rewrite fmap_cons in Hp.
  apply not_elem_of_cons in Hp as [Hne Hp]. rewrite (Hother p Hp).
  destruct (isfile _ _); [|done]. simpl. by rewrite lookup_delete_ne.
Qed.

Lemma remove_tracked_frame names w :
  ext (remove_tracked names w).2 = ext w
  ∧ disk (remove_tracked names w).2 ⊆ disk w
  ∧ (∀ p, disk w !! p = Some Dir →
          disk (remove_tracked names w).2 !! p = Some Dir)
  ∧ (∀ p, (∀ n, n ∈ names → tracked n = true → p ≠ os_path_join BASE_DIR n) →
          disk (remove_tracked names w).2 !! p = disk w !! p).
Proof.
  revert w. induction names as [|a names IH]; intros w; [done|].
  rewrite remove_tracked_cons. destruct (tracked a) eqn:Ha.
  - destruct (disk w !! os_path_join BASE_DIR a) as [[|]|] eqn:Hk; [|done..].
    set (w1 := (logger _ _ _).2).
    destruct (IH w1) as (-> & Hsub & Hdir & Hother).
    assert (Hdel : disk w1 ⊆ disk w) by apply delete_subseteq.
    split; [done|]. split; [by etrans|]. split.
    + intros p Hp. apply Hdir. unfold w1. simpl.
      rewrite lookup_delete_ne; [done | congruence].
    + intros p Hp. rewrite Hother.
      * unfold w1. simpl. rewrite lookup_delete_ne; [done|].
        apply not_eq_sym, Hp; [by left | done].
      * intros n Hn. apply Hp. by right.
  - destruct (IH w) as (Hext & Hsub & Hdir & Hother).
    split; [done|]. split; [done|]. split; [done|].
    intros p Hp. apply Hother. intros n Hn. apply Hp. by right.
Qed.


(** Whatever its outcome, [delete_files] creates nothing and leaves the
    environment alone; it removes no directory; and it keeps every entry
    that is neither the path of an expected file nor the path of a name
    with a tracked extension in [BASE_DIR]. *)
Theorem delete_files_preserves files w :
  ext (delete_files files w).2 = ext w
  ∧ disk (delete_files files w).2 ⊆ disk w
  ∧ (∀ p, disk w !! p = Some Dir → disk (delete_files files w).2 !! p = Some Dir)
  ∧ (∀ p, p ∉ get_file_path <$> files →
          (∀ n, tracked n = true → p ≠ os_path_join BASE_DIR n) →
          disk (delete_files files w).2 !! p = disk w !! p).
Proof.
  rewrite delete_files_eq.
  set (w0 := (called (Call_delete_files files) w).2).
  destruct (remove_expected_frame files w0) as [Hext1 Hother1].
  destruct (remove_expected_spec files w0) as (w1 & Hrun & Hsub1 & Hdir1 & _).
  rewrite Hrun in *. simpl in Hext1, Hother1.
  destruct (String.eqb BASE_DIR ""); simpl.
  - split; [done|]. split; [done|]. split; [done|].
    intros p Hp _. by apply Hother1.
  - destruct (remove_tracked_frame (listdir (disk w1) BASE_DIR) w1)
      as (Hext2 & Hsub2 & Hdir2 & Hother2).
    split; [by rewrite Hext2|]. split; [by etrans|]. split.
    + intros p Hp. by apply Hdir2, Hdir1.
    + intros p Hp Hn. rewrite Hother2; [by apply Hother1|].
      intros n _. apply Hn.
Qed.

(** *** Further properties of the verifier *)

(** Every policy, in terms of the list of missing files that the verifier
    computes. *)
Lemma check_csv_files_policy_complete files retries delay w :
  (0 ≤ delay)%Z →
  ((check_csv_files files retries delay w).1 = Returned true
   ↔ ∃ i, (i < Z.to_nat retries)%nat ∧ complete files (at_attempt delay i w))
  ∧ ((check_csv_files files retries delay w).1 = Returned false
     ↔ ∀ i, (i < Z.to_nat retries)%nat →
            ¬ complete files (at_attempt delay i w)).
Proof.
  intros Hdelay.
  destruct (check_csv_files_spec files retries delay w Hdelay)
    as [(i & Hi & Hc & _ & Hr & _)|(Hnone & Hr & _)]; rewrite Hr.
  - split.
    + split; [eauto | done].
    + split; [done|]. intros Hnone. by destruct (Hnone i Hi).
  - split; [|done].
    split; [done|]. intros (i & Hi & Hc). by destruct (Hnone i Hi).
Qed.

(** For every number of attempts and every delay that is not negative,
    [check_csv_files] returns [True] exactly when on one of its attempts
    every path of [files] is on the disk as a regular file, and [False]
    exactly when on each of them some path is not. *)
Theorem check_csv_files_any_policy files retries delay w :
  (0 ≤ delay)%Z →
  ((check_csv_files files retries delay w).1 = Returned true
   ↔ ∃ i, (i < Z.to_nat retries)%nat ∧ present files (at_attempt delay i w))
  ∧ ((check_csv_files files retries delay w).1 = Returned false
     ↔ ∀ i, (i < Z.to_nat retries)%nat →
            ¬ present files (at_attempt delay i w)).
Proof.
  intros Hdelay.
  destruct (check_csv_files_policy_complete files retries delay w Hdelay)
    as [Htrue Hfalse].
  split.
  - rewrite Htrue. split; intros (i & Hi & Hc); exists i;
      (split; [done | by apply complete_present]).
  - rewrite Hfalse. split; intros Hnone i Hi Hc;
      apply (Hnone i Hi); by apply complete_present.
Qed.

(** A verifier that is allowed more attempts returns [True] whenever one
    with fewer attempts does. *)
Theorem check_csv_files_more_retries files retries retries' delay w :
  (0 ≤ delay)%Z → (retries ≤ retries')%Z →
  (check_csv_files files retries delay w).1 = Returned true →
  (check_csv_files files retries' delay w).1 = Returned true.
Proof.
  intros Hdelay Hle Hr.
  destruct (check_csv_files_spec files retries delay w Hdelay)
    as [(i & Hi & Hc & _)|(_ & Hr' & _)]; [|congruence].
  destruct (check_csv_files_spec files retries' delay w Hdelay)
    as [(_ & _ & _ & _ & Hr' & _)|(Hnone & _)]; [done|].
  destruct (Hnone i); [lia | done].
Qed.

(** Without attempts there is no verification: when [retries] is not
    positive, [check_csv_files] returns [False] at once, also when every
    file is there and when no file is expected, without waiting and for
    every delay.  With at least one attempt and no expected file it returns
    [True] at once. *)
Theorem check_csv_files_no_attempt files retries delay w :
  ((retries ≤ 0)%Z →
   (check_csv_files files retries delay w).1 = Returned false
   ∧ env_of (check_csv_files files retries delay w).2 = env_of w)
  ∧ ((0 < retries)%Z →
     (check_csv_files [] retries delay w).1 = Returned true
     ∧ env_of (check_csv_files [] retries delay w).2 = env_of w).
Proof.
  unfold check_csv_files, bind, called, modify. simpl. split.
  - intros Hr. by rewrite Z2Nat.nonpos.
  - intros Hr. destruct (Z.to_nat retries) as [|n] eqn:Hn; [lia | done].
Qed.

(** With a negative delay the verifier raises as soon as it has to wait:
    when it has an attempt and a file is missing on the first one,
    [time.sleep] raises [ValueError], which [check_csv_files] does not
    catch. *)
Theorem check_csv_files_negative_delay files retries delay w :
  (0 < retries)%Z → (delay < 0)%Z →
  missing_files files (disk w) ≠ [] →
  (check_csv_files files retries delay w).1 = Raised ValueError.
Proof.
  intros Hr Hdelay Hmiss.
  unfold check_csv_files, bind at 1, called, modify. cbn [fst snd].
  destruct (Z.to_nat retries) as [|n] eqn:Hn; [lia|].
  cbn [check_csv_files_loop]. unfold bind at 1, get. cbn [fst snd disk].
  destruct (missing_files files (disk w)) as [|p l]; [done|].
  unfold bind at 1, logger at 1, modify. unfold bind at 1, time_sleep.
  by destruct (Z.ltb_spec delay 0) as [_|?]; [|lia].
Qed.

(** *** Further properties of the request/response gateway *)

(** When [main] answers with status 200 or 400, the sweep has completed: no
    expected file and no name with a tracked extension is left in
    [BASE_DIR] when the caller gets the answer, also after a run that
    succeeded. *)
Theorem main_answers_after_cleanup req w resp :
  (main req w).1 = Returned resp →
  status_code resp ≠ 500 →
  let w' := (main req w).2 in
  (∀ f, f ∈ csv_files → isfile (disk w') (get_file_path f) = false)
  ∧ (∀ n, n ∈ listdir (disk w') BASE_DIR → tracked n = false).
Proof.
  cbv zeta. unfold main, bind, logger, modify, try_except, ret. simpl.
  destruct (params req) as [|? ?]; simpl;
    match goal with
    | |- context [run_all_scripts ?W] =>
        pose proof (run_all_scripts_returned_clean W) as Hclean;
        destruct (run_all_scripts W) as [[b|e] w1]
    end; simpl in *.
  1,3: destruct (Hclean b eq_refl) as [Hnofile Hnone];
       destruct b; simpl; intros _ _; (split; [|done]);
       intros f Hf; by apply bool_decide_eq_false_2, Hnofile.
  all: intros [= <-]; simpl; by intros [].
Qed.

End Env.
End HttpTrigger1.

(** ** The runtime of the Flask gateways *)

Module runtime.

(** The world of the Flask gateways: the environment, the status file
    ([None] when it does not exist) with the record of every value written
    to it, the number of worker threads started and not yet run, and the
    output.  The status file is written by the gateway only. *)
Record World (X : Type) := mkWorld {
  ext : X;
  status_file : option string;
  status_writes : list string;
  pending : nat;
  logs : list (level * string);
  stdout : list string
}.
Arguments mkWorld {X}.
Arguments ext {X}.
Arguments status_file {X}.
Arguments status_writes {X}.
Arguments pending {X}.
Arguments logs {X}.
Arguments stdout {X}.

(** A JSON object with string values, as passed to [jsonify]. *)
Definition json := list (string * string).

(** [str.strip()] on ASCII strings. *)
Definition is_space (a : ascii) : bool :=
  let n := nat_of_ascii a in
  ((9 <=? n) && (n <=? 13) || (28 <=? n) && (n <=? 32))%nat.

Fixpoint lstrip (s : string) : string :=
  match s with
  | EmptyString => EmptyString
  | String a s' => if is_space a then lstrip s' else s
  end.

Definition strip (s : string) : string :=
  String.rev (lstrip (String.rev (lstrip s))).

Definition is_FileNotFoundError (e : exn) : bool :=
  match e with OSError ENOENT => true | _ => false end.

Definition is_RequestException (e : exn) : bool :=
  match e with RequestException => true | _ => false end.

(** The run states, and the literal that stands for each in the status
    file. *)
Inductive run_state := NotStarted | Running | Completed | Failed.

Definition literal (st : run_state) : string :=
  match st with
  | NotStarted => "Sync not started"
  | Running => "Sync running"
  | Completed => "Sync completed"
  | Failed => "Sync failed"
  end.

(** The acknowledgment of a trigger. *)
Definition acknowledgment : json :=
  [("status", "success"); ("message", "Script task started");
   ("link", "/path/to/sharepoint")].

(** What reaches the server: a [POST /sync], a [GET /status], or the
    scheduler letting one started worker thread run. *)
Inductive event := Trigger | Poll | WorkerRuns.

Section Env.

Context {X : Type}.

(** [spawn argv] is what launching the command [argv] and waiting for it
    does to the environment. *)
Variable spawn : list string → X → proc * X.

Definition logger (l : level) (msg : string) : M (World X) unit :=
  modify (λ w, mkWorld (ext w) (status_file w) (status_writes w) (pending w)
                 (logs w ++ [(l, msg)]) (stdout w)).

Definition print (s : string) : M (World X) unit :=
  modify (λ w, mkWorld (ext w) (status_file w) (status_writes w) (pending w)
                 (logs w) (stdout w ++ [s])).

(** [asyncio.create_subprocess_exec('python3', script, ...)] followed by
    [process.communicate()]: the return code and the captured output of
    the process; [OSError] when it cannot be started. *)
Definition asyncio_subprocess (argv : list string)
  : M (World X) (Z * option string * option string) :=
  λ w, let '(p, x) := spawn argv (ext w) in
       let w' := mkWorld x (status_file w) (status_writes w) (pending w)
                   (logs w) (stdout w) in
       match p with
       | CannotStart e => (Raised (OSError e), w')
       | Exited c out err => (Returned (c, out, err), w')
       end.

(** [bytes.decode()] *)
Definition decode (b : option string) : M (World X) string :=
  match b with
  | Some s => ret s
  | None => raise UnicodeDecodeError
  end.

(** [asyncio.run(coro)] runs the coroutine to its end. *)
Definition asyncio_run {A} (coro : M (World X) A) : M (World X) A := coro.

(** [with open(SYNC_STATUS_FILE, 'w') as file: file.write(s)] *)
Definition write_status (s : string) : M (World X) unit :=
  modify (λ w, mkWorld (ext w) (Some s) (status_writes w ++ [s]) (pending w)
                 (logs w) (stdout w)).

(** [with open(SYNC_STATUS_FILE, 'r') as file: file.read()] *)
Definition read_status : M (World X) string :=
  λ w, match status_file w with
       | Some s => (Returned s, w)
       | None => (Raised (OSError ENOENT), w)
       end.

(** [os.path.exists(SYNC_STATUS_FILE)] *)
Definition status_exists : M (World X) bool :=
  λ w, (Returned (bool_decide (is_Some (status_file w))), w).

(** [threading.Thread(target=run_async_script).start()]: the worker is
    started, and runs later. *)
Definition thread_start : M (World X) unit :=
  modify (λ w, mkWorld (ext w) (status_file w) (status_writes w)
                 (S (pending w)) (logs w) (stdout w)).

(** The server, for the view functions [sync] and [status] and the thread
    target [run_async_script] of a gateway.  A request is answered with
    the value of its view function ([None] stands for the error page of
    an exception); a worker that runs is one of the started ones, and an
    exception that leaves it ends its thread only.  Requests and workers
    are interleaved as whole steps: what another thread can see between
    the two writes of one [sync] is not part of this model. *)
Definition handle (sync status : M (World X) json)
    (run_async_script : M (World X) unit) (ev : event) (w : World X)
  : option json * World X :=
  match ev with
  | Trigger =>
      let '(r, w') := sync w in
      (match r with Returned j => Some j | Raised _ => None end, w')
  | Poll =>
      let '(r, w') := status w in
      (match r with Returned j => Some j | Raised _ => None end, w')
  | WorkerRuns =>
      match pending w with
      | O => (None, w)
      | S n =>
          (None,
           (run_async_script
              (mkWorld (ext w) (status_file w) (status_writes w) n
                 (logs w) (stdout w))).2)
      end
  end.

Fixpoint serve (sync status : M (World X) json)
    (run_async_script : M (World X) unit) (evs : list event) (w : World X)
  : list (event * option json) * World X :=
  match evs with
  | [] => ([], w)
  | ev :: evs' =>
      let '(resp, w1) := handle sync status run_async_script ev w in
      let '(resps, w2) := serve sync status run_async_script evs' w1 in
      ((ev, resp) :: resps, w2)
  end.

(** The answer to a trigger is the value of [sync], whatever the workers
    do before and after. *)
Lemma serve_trigger_responses (sync status : M (World X) json)
    (run_async_script : M (World X) unit) (ack : json) :
  (∀ w, (sync w).1 = Returned ack) →
  ∀ evs w,
    Forall (λ er : event * option json, er.1 = Trigger → er.2 = Some ack)
      (serve sync status run_async_script evs w).1.
Proof.
  intros Hsync. induction evs as [|ev evs IH]; intros w; simpl; [done|].
  destruct (handle sync status run_async_script ev w) as [resp w1] eqn:Hh.
  specialize (IH w1).
  destruct (serve sync status run_async_script evs w1) as [resps w2].
  constructor; [|done]. simpl. intros ->. simpl in Hh.
  specialize (Hsync w). destruct (sync w) as [r w']. simpl in Hsync.
  by simplify_eq.
Qed.

End Env.
End runtime.

(** ** [HttpTrigger1/main.py]: the asyncio stage executor *)

Module main.
Import runtime.

Section Env.

Context {X : Type}.
Variable spawn : list string → X → proc * X.

Definition run_script (script : string) : M (World X) bool :=
  try_except
    (logger INFO ("Running script: " ++ script) >>
     let! process := asyncio_subprocess spawn ["python3"; script] in
     let '(returncode, stdout, stderr) := process in
     if (returncode =? 0)%Z then
       logger INFO ("Script " ++ script ++ " completed successfully.") >>
       let! out := decode stdout in
       logger INFO ("Output:" ++ LF ++ out) >>
       ret true
     else
       let! err := decode stderr in
       logger ERROR ("Script " ++ script ++ " failed with error:" ++ LF ++ err) >>
       ret false)
    is_Exception
    (λ e, logger ERROR ("Failed to execute script " ++ script ++ ": "
                        ++ str_exn e) >>
          ret false).

(** The value of [run_script] in terms of what the launched process did:
    every exception is turned into [False]. *)
Lemma async_run_script_result script w :
  (run_script script w).1
  = Returned
      match (spawn ["python3"; script] (ext w)).1 with
      | CannotStart _ => false
      | Exited c out err => (c =? 0)%Z && bool_decide (is_Some out)
      end.
Proof.
  unfold run_script, try_except, bind, logger, modify, asyncio_subprocess,
    decode, ret, raise; simpl.
  destruct (spawn _ _) as [[e|c out err] x]; simpl; [done|].
  destruct (c =? 0)%Z; simpl.
  - by destruct out.
  - by destruct err.
Qed.

(** [run_script] leaves the status file and the started workers alone. *)
Lemma async_run_script_frame script w :
  let w' := (run_script script w).2 in
  status_file w' = status_file w
  ∧ status_writes w' = status_writes w
  ∧ pending w' = pending w.
Proof.
  unfold run_script, try_except, bind, logger, modify, asyncio_subprocess,
    decode, ret, raise; simpl.
  destruct (spawn _ _) as [[e|c out err] x]; simpl; [done|].
  destruct (c =? 0)%Z; simpl.
  - by destruct out.
  - by destruct err.
Qed.

(** *** Further properties of the stage executor *)

(** The entries of a log at level [ERROR]. *)
Definition is_error (e : level * string) : bool :=
  match e.1 with ERROR => true | _ => false end.

Definition errors (l : list (level * string)) : list (level * string) :=
  filter (λ e, is_error e = true) l.

(** [run_script] never raises.  It returns [True] exactly when the process
    exits with status 0 and its standard output decodes: a process that
    cannot be started, a status that is not 0 and an output that does not
    decode all give [False].  It logs exactly one error when it returns
    [False] and none when it returns [True], and apart from the process it
    leaves the environment alone. *)
Theorem async_run_script_outcome script w :
  let p := spawn ["python3"; script] (ext w) in
  ∃ b, (run_script script w).1 = Returned b
    ∧ (b = true ↔ ∃ out err, p.1 = Exited 0 (Some out) err)
    ∧ (∃ l, logs (run_script script w).2 = (logs w ++ l)%list
            ∧ length (errors l) = if b then 0%nat else 1%nat)
    ∧ ext (run_script script w).2 = p.2.
Proof.
  cbv zeta.
  unfold run_script, try_except, bind, logger, modify, asyncio_subprocess,
    decode, ret, raise; simpl.
  destruct (spawn _ _) as [[e|c out err] x]; simpl.
  - exists false. split; [done|]. split; [by split; [|intros (? & ? & ?)]|].
    split; [|done]. eexists. by rewrite <- app_assoc.
  - destruct (Z.eqb_spec c 0) as [->|Hc]; simpl.
    + destruct out as [out|]; simpl.
      * exists true. split; [done|]. split; [by split; eauto|].
        split; [|done]. eexists. by rewrite <- !app_assoc.
      * exists false. split; [done|].
        split; [by split; [|intros (? & ? & ?)]|].
        split; [|done]. eexists. by rewrite <- !app_assoc.
    + exists false. destruct err as [err|]; simpl.
      * split; [done|]. split; [by split; [|intros (? & ? & [= ? _])]|].
        split; [|done]. eexists. by rewrite <- !app_assoc.
      * split; [done|]. split; [by split; [|intros (? & ? & [= ? _])]|].
        split; [|done]. eexists. by rewrite <- !app_assoc.
Qed.

End Env.
End main.

(** ** [HttpTrigger1/main.py]: the one-shot verifier *)

Module main_verifier.

(** [repr] of a list of strings, as an f-string prints it (for strings
    without quotes and backslashes). *)
Definition repr_list (l : list string) : string :=
  "[" ++ join_comma ((λ x, "'" ++ x ++ "'") <$> l) ++ "]".

Section Env.

Context {X : Type}.

(** The verifier of [main.py] reads the disk and writes to the log: its
    world is the world of the pipeline. *)
Definition check_csv_files (files : list string)
  : M (@HttpTrigger1.World X) bool :=
  let! w := get in
  let missing_files :=
    filter (λ file, isfile (HttpTrigger1.disk w) file = false) files in
  match missing_files with
  | _ :: _ =>
      HttpTrigger1.logger WARNING ("Missing files: " ++ repr_list missing_files) >>
      ret false
  | [] =>
      HttpTrigger1.logger INFO "All required CSV files are present." >>
      ret true
  end.

(** The one-shot verifier never raises and returns [True] exactly when
    every path of [files], taken as it is, is a regular file.  It makes one
    check only, changes neither the disk nor the environment, and writes
    one entry to the log: a warning when it returns [False]. *)
Theorem check_csv_files_one_shot files (w : @HttpTrigger1.World X) :
  ∃ b, (check_csv_files files w).1 = Returned b
    ∧ (b = true ↔ ∀ f, f ∈ files → isfile (HttpTrigger1.disk w) f = true)
    ∧ HttpTrigger1.disk (check_csv_files files w).2 = HttpTrigger1.disk w
    ∧ HttpTrigger1.ext (check_csv_files files w).2 = HttpTrigger1.ext w
    ∧ ∃ msg, HttpTrigger1.logs (check_csv_files files w).2
             = (HttpTrigger1.logs w ++ [(if b then INFO else WARNING, msg)])%list.
Proof.
  unfold check_csv_files, bind, get, HttpTrigger1.logger, modify, ret. simpl.
  destruct (filter _ files) as [|p l] eqn:Hmiss; simpl.
  - exists true. split; [done|]. split; [|eauto].
    split; [|done]. intros _ f Hf.
    destruct (isfile (HttpTrigger1.disk w) f) eqn:Hfile; [done|].
    assert (Hin : f ∈ filter (λ file, isfile (HttpTrigger1.disk w) file = false) files)
      by (by apply list_elem_of_filter).
    rewrite Hmiss in Hin. by apply elem_of_nil in Hin.
  - exists false. split; [done|]. split; [|eauto].
    split; [done|]. intros Hall.
    assert (Hin : p ∈ filter (λ file, isfile (HttpTrigger1.disk w) file = false) files)
      by (rewrite Hmiss; left).
    apply list_elem_of_filter in Hin as [Hp Hin].
    by rewrite (Hall p Hin) in Hp.
Qed.

(** The retrying verifier of [__init__.py] with a single attempt gives the
    verdict of the one-shot verifier of [main.py] on the joined paths. *)
Theorem check_csv_files_single_attempt elapse BASE_DIR files delay
    (w : @HttpTrigger1.World X) :
  (0 ≤ delay)%Z →
  (HttpTrigger1.check_csv_files elapse BASE_DIR files 1 delay w).1
  = (check_csv_files (HttpTrigger1.get_file_path BASE_DIR <$> files) w).1.
Proof.
  intros Hdelay.
  unfold HttpTrigger1.check_csv_files, bind at 1, HttpTrigger1.called, modify.
  cbn [fst snd]. change (Z.to_nat 1) with 1%nat.
  rewrite HttpTrigger1.check_csv_files_loop_S by done.
  unfold check_csv_files, bind, get, HttpTrigger1.logger, modify, ret.
  cbn [fst snd HttpTrigger1.disk]. unfold HttpTrigger1.missing_files.
  by destruct (filter _ (HttpTrigger1.get_file_path BASE_DIR <$> files)).
Qed.

End Env.
End main_verifier.

(** ** [HttpTrigger1/app.py]: the Flask gateway of the function app *)

Module HttpTrigger1_app.
Import runtime.

Section Env.

Context {X : Type}.
Variable spawn : list string → X → proc * X.

Definition reset_sync_state : M (World X) unit :=
  write_status "Sync not started".

Definition run_async_script : M (World X) unit :=
  asyncio_run (main.run_script spawn "main.py") >> ret tt.

Definition sync : M (World X) json :=
  let! present := status_exists in
  (if present then
     let! content := read_status in
     let status := strip content in
     if String.eqb status "Sync completed" || String.eqb status "Sync running"
     then reset_sync_state
     else ret tt
   else ret tt) >>
  write_status "Sync running" >>
  thread_start >>
  ret [("status", "success"); ("message", "Script task started");
       ("link", "/path/to/sharepoint")].

Definition status : M (World X) json :=
  let! status :=
    try_except (let! content := read_status in ret (strip content))
      is_FileNotFoundError
      (λ _, ret "Sync not started") in
  ret [("status", status)].

(** *** The trigger *)

(** The values [sync] writes to the status file when the file holds
    [content] ([None]: no file). *)
Definition sync_writes (content : option string) : list string :=
  match content with
  | Some c =>
      if String.eqb (strip c) "Sync completed" || String.eqb (strip c) "Sync running"
      then ["Sync not started"; "Sync running"]
      else ["Sync running"]
  | None => ["Sync running"]
  end.

Lemma sync_eq w :
  sync w
  = (Returned acknowledgment,
     mkWorld (ext w) (Some "Sync running")
       (status_writes w ++ sync_writes (status_file w))
       (S (pending w)) (logs w) (stdout w)).
Proof.
  unfold sync, sync_writes, bind, status_exists, read_status, reset_sync_state,
    write_status, thread_start, modify, ret.
  destruct (status_file w) as [c|] eqn:Hf; simpl; [|done].
  rewrite Hf. destruct (_ || _); simpl; [|done].
  by rewrite <- app_assoc.
Qed.

(** *** The worker *)

Lemma run_async_script_frame w :
  let w' := (run_async_script w).2 in
  status_file w' = status_file w
  ∧ status_writes w' = status_writes w
  ∧ pending w' = pending w.
Proof.
  unfold run_async_script, asyncio_run, bind, ret.
  pose proof (main.async_run_script_frame spawn "main.py" w) as Hf.
  by destruct (main.run_script spawn "main.py" w) as [[b|e] w1].
Qed.

Lemma status_frame w : (status w).2 = w.
Proof.
  unfold status, try_except, bind, read_status, ret.
  by destruct (status_file w).
Qed.

(** Events other than triggers leave the status file as it is. *)
Lemma serve_without_trigger evs w :
  Trigger ∉ evs →
  let w' := (serve sync status run_async_script evs w).2 in
  status_file w' = status_file w ∧ status_writes w' = status_writes w.
Proof.
  revert w. induction evs as [|ev evs IH]; intros w Hev; simpl; [done|].
  apply not_elem_of_cons in Hev as [Hne Hev].
  destruct (handle sync status run_async_script ev w) as [resp w1] eqn:Hh.
  specialize (IH w1 Hev).
  destruct (serve sync status run_async_script evs w1) as [resps w2].
  simpl in *. destruct IH as [-> ->].
  destruct ev; simpl in Hh; [done| |].
  - pose proof (status_frame w) as Hs.
    destruct (status w) as [r w']. simpl in Hs. by simplify_eq.
  - destruct (pending w) as [|n]; [by simplify_eq|].
    injection Hh as _ <-.
    by destruct (run_async_script_frame
                   (mkWorld (ext w) (status_file w) (status_writes w) n
                      (logs w) (stdout w))) as (-> & -> & _).
Qed.

(** C10.  The worker of the [HttpTrigger1] gateway writes nothing to the
    status file, whatever the process it launches does.  Hence after a
    trigger, while workers run and the status is polled and no other
    trigger arrives, the status file keeps the value ["Sync running"] and
    neither ["Sync completed"] nor ["Sync failed"] is written. *)
Theorem worker_never_writes_status evs w :
  Trigger ∉ evs →
  let w1 := (sync w).2 in
  let w2 := (serve sync status run_async_script evs w1).2 in
  status_writes (run_async_script w1).2 = status_writes w1
  ∧ status_file w2 = Some (literal Running)
  ∧ status_writes w2 = status_writes w1.
Proof.
  intros Hev w1 w2.
  destruct (run_async_script_frame w1) as (_ & Hw & _).
  destruct (serve_without_trigger evs w1 Hev) as [Hf Hws].
  fold w2 in Hf, Hws. split; [done|]. split; [|done].
  rewrite Hf. unfold w1. by rewrite sync_eq.
Qed.

(** *** Further properties of the gateway *)

(** What a poll answers: the stripped content of the status file, or
    ["Sync not started"] when there is no file. *)
Definition reported (w : World X) : json :=
  [("status", match status_file w with
              | Some content => strip content
              | None => "Sync not started"
              end)].

Lemma status_eq w : status w = (Returned (reported w), w).
Proof.
  unfold status, reported, try_except, bind, read_status, ret.
  by destruct (status_file w).
Qed.

(** In the [HttpTrigger1] gateway, once the status file says
    ["Sync running"] and as long as no further trigger arrives, every poll
    is answered with ["Sync running"], whatever worker runs and polls
    follow and whatever the processes of the workers do, and the status
    file keeps that value. *)
Theorem polls_keep_saying_running evs w :
  Trigger ∉ evs →
  status_file w = Some (literal Running) →
  Forall (λ er : event * option json,
            er.1 = Poll → er.2 = Some [("status", literal Running)])
    (serve sync status run_async_script evs w).1
  ∧ status_file (serve sync status run_async_script evs w).2
    = Some (literal Running).
Proof.
  revert w. induction evs as [|ev evs IH]; intros w Hev Hw; simpl; [done|].
  apply not_elem_of_cons in Hev as [Hne Hev].
  destruct (handle sync status run_async_script ev w) as [resp w1] eqn:Hh.
  assert (Hw1 : status_file w1 = Some (literal Running)
                ∧ (ev = Poll → resp = Some [("status", literal Running)])).
  { destruct ev; simpl in Hh; [done | |].
    - rewrite status_eq in Hh. injection Hh as <- <-. split; [done|].
      intros _. unfold reported. by rewrite Hw.
    - destruct (pending w) as [|n]; [by simplify_eq|].
      injection Hh as _ <-. split; [|done].
      by destruct (run_async_script_frame
                     (mkWorld (ext w) (status_file w) (status_writes w) n
                        (logs w) (stdout w))) as (-> & _). }
  destruct Hw1 as [Hw1 Hresp]. destruct (IH w1 Hev Hw1) as [Hall Hend].
  destruct (serve sync status run_async_script evs w1) as [resps w2].
  split; [|done]. by constructor.
Qed.

End Env.
End HttpTrigger1_app.

(** ** [src/app.py]: the Flask gateway that also calls the Azure Function *)

Module src_app.
Import runtime.

(** The outcome of [requests.post] with [raise_for_status] and [json]: a
    decoded response, a [RequestException], or any other exception. *)
Inductive http :=
| Response (body : json)
| RequestFailed
| Fault (e : exn).

Section Env.

Context {X : Type}.

(** [post] is what the HTTP request does to the environment. *)
Variable post : json → X → http * X.

(** [run_script] of [src/main.py], imported by [src/app.py]. *)
Variable run_script : string → M (World X) bool.

Definition requests_post (payload : json) : M (World X) json :=
  λ w, let '(h, x) := post payload (ext w) in
       let w' := mkWorld x (status_file w) (status_writes w) (pending w)
                   (logs w) (stdout w) in
       match h with
       | Response body => (Returned body, w')
       | RequestFailed => (Raised RequestException, w')
       | Fault e => (Raised e, w')
       end.

Definition call_azure_function (payload : json) : M (World X) json :=
  try_except
    (let! response := requests_post payload in
     print "Azure Function Response:" >>
     ret response)
    is_RequestException
    (λ e, print ("Error calling Azure Function: " ++ str_exn e) >>
          ret [("error", str_exn e)]).

Definition reset_sync_state : M (World X) unit :=
  write_status "Sync not started".

Definition run_async_script : M (World X) unit :=
  try_except
    (asyncio_run (run_script "main.py") >>
     let payload := [("key", "value")] in
     let! azure_response := call_azure_function payload in
     print "Azure Function response:" >>
     write_status "Sync completed")
    is_Exception
    (λ e, print ("Error in run_async_script: " ++ str_exn e) >>
          write_status "Sync failed").

Definition sync : M (World X) json :=
  let! present := status_exists in
  (if present then
     let! content := read_status in
     let status := strip content in
     if String.eqb status "Sync completed" || String.eqb status "Sync running"
     then reset_sync_state
     else ret tt
   else ret tt) >>
  write_status "Sync running" >>
  thread_start >>
  ret [("status", "success"); ("message", "Script task started");
       ("link", "/path/to/sharepoint")].

Definition status : M (World X) json :=
  let! status :=
    try_except (let! content := read_status in ret (strip content))
      is_FileNotFoundError
      (λ _, ret "Sync not started") in
  ret [("status", status)].

(** *** The trigger *)

Lemma src_sync_eq w :
  sync w
  = (Returned acknowledgment,
     mkWorld (ext w) (Some "Sync running")
       (status_writes w ++ HttpTrigger1_app.sync_writes (status_file w))
       (S (pending w)) (logs w) (stdout w)).
Proof. apply HttpTrigger1_app.sync_eq. Qed.

(** *** The worker *)

(** The environment-visible part of the world is all that
    [call_azure_function] changes, and it raises no [RequestException]. *)
Lemma call_azure_function_frame payload w :
  let w' := (call_azure_function payload w).2 in
  status_file w' = status_file w ∧ status_writes w' = status_writes w.
Proof.
  unfold call_azure_function, try_except, bind, requests_post, print, modify,
    ret. simpl.
  destruct (post payload (ext w)) as [[body| |e] x]; simpl; [done..|].
  by destruct (is_RequestException e).
Qed.

Lemma call_azure_function_result payload w :
  (call_azure_function payload w).1
  = match (post payload (ext w)).1 with
    | Response body => Returned body
    | RequestFailed => Returned [("error", str_exn RequestException)]
    | Fault e =>
        if is_RequestException e then Returned [("error", str_exn e)]
        else Raised e
    end.
Proof.
  unfold call_azure_function, try_except, bind, requests_post, print, modify,
    ret. simpl.
  destruct (post payload (ext w)) as [[body| |e] x]; simpl; [done..|].
  by destruct (is_RequestException e).
Qed.

(** The worker, step by step. *)
Lemma run_async_script_eq w :
  run_async_script w
  = match run_script "main.py" w with
    | (Raised e, w1) =>
        (print ("Error in run_async_script: " ++ str_exn e) >>
         write_status "Sync failed") w1
    | (Returned _, w1) =>
        match call_azure_function [("key", "value")] w1 with
        | (Raised e, w2) =>
            (print ("Error in run_async_script: " ++ str_exn e) >>
             write_status "Sync failed") w2
        | (Returned _, w2) =>
            (print "Azure Function response:" >>
             write_status "Sync completed") w2
        end
    end.
Proof.
  unfold run_async_script, asyncio_run, try_except. unfold bind at 1.
  destruct (run_script "main.py" w) as [[b|e] w1]; [|done].
  unfold bind at 1.
  by destruct (call_azure_function [("key", "value")] w1) as [[j|e] w2].
Qed.

(** What the worker writes to the status file: ["Sync completed"] when no
    exception reaches its handler, whatever value [run_script] returned,
    and ["Sync failed"] when one does. *)
Lemma run_async_script_writes w :
  let w1 := (run_script "main.py" w).2 in
  let written :=
    match (run_script "main.py" w).1 with
    | Raised _ => Failed
    | Returned _ =>
        match (call_azure_function [("key", "value")] w1).1 with
        | Raised _ => Failed
        | Returned _ => Completed
        end
    end in
  status_file (run_async_script w).2 = Some (literal written)
  ∧ status_writes (run_async_script w).2
    = (status_writes w1 ++ [literal written])%list.
Proof.
  rewrite run_async_script_eq.
  destruct (run_script "main.py" w) as [[b|e] w1]; simpl; [|done].
  pose proof (call_azure_function_frame [("key", "value")] w1) as [Hf Hw].
  destruct (call_azure_function [("key", "value")] w1) as [[j|e] w2];
    simpl in *; by rewrite Hw.
Qed.

(** C3.  When [run_script] reports the failure of the stage by returning
    [False] and the call of the Azure Function raises nothing, the worker
    writes ["Sync completed"]: the final run state is Completed, not
    Failed. *)
Theorem run_async_script_ignores_stage_failure w :
  (run_script "main.py" w).1 = Returned false →
  let w1 := (run_script "main.py" w).2 in
  (∀ e, (post [("key", "value")] (ext w1)).1 ≠ Fault e) →
  status_file (run_async_script w).2 = Some (literal Completed)
  ∧ status_writes (run_async_script w).2
    = (status_writes w1 ++ [literal Completed])%list.
Proof.
  intros Hr w1 Hpost.
  pose proof (run_async_script_writes w) as Hw. simpl in Hw.
  rewrite Hr, call_azure_function_result in Hw. fold w1 in Hw.
  destruct (post [("key", "value")] (ext w1)).1 as [body| |e] eqn:Hp;
    [done | done | by destruct (Hpost e)].
Qed.

(** *** Further properties of the gateway *)

(** [call_azure_function] lets no [RequestException] out: a request that
    fails is answered with an object that holds the error.  The body of a
    response is returned as it is, any other exception leaves the function,
    and the status file is not touched. *)
Theorem call_azure_function_swallows_request_errors payload w :
  (call_azure_function payload w).1 ≠ Raised RequestException
  ∧ ((post payload (ext w)).1 = RequestFailed →
     (call_azure_function payload w).1
     = Returned [("error", str_exn RequestException)])
  ∧ (∀ body, (post payload (ext w)).1 = Response body →
             (call_azure_function payload w).1 = Returned body)
  ∧ (∀ e, (post payload (ext w)).1 = Fault e → is_RequestException e = false →
          (call_azure_function payload w).1 = Raised e)
  ∧ status_writes (call_azure_function payload w).2 = status_writes w.
Proof.
  destruct (call_azure_function_frame payload w) as [_ Hw].
  rewrite call_azure_function_result.
  destruct (post payload (ext w)).1 as [body| |e] eqn:Hp.
  - split; [done|]. split; [done|]. split; [by intros ? [= ->]|]. by split.
  - split; [done|]. by split.
  - split; [by destruct e|]. split; [done|]. split; [done|].
    split; [|done]. by intros ? [= <-] ->.
Qed.

(** The worker never raises and always ends by writing a terminal state,
    which depends on exceptions only: it writes ["Sync failed"] when
    [run_script] raises or the call of the Azure Function raises something
    that is not a [RequestException], and ["Sync completed"] otherwise,
    whatever [run_script] returned and also when the request to the Azure
    Function failed. *)
Theorem run_async_script_terminal w :
  let w1 := (run_script "main.py" w).2 in
  (run_async_script w).1 = Returned tt
  ∧ status_file (run_async_script w).2
    = Some (literal
              match (run_script "main.py" w).1 with
              | Raised _ => Failed
              | Returned _ =>
                  match (post [("key", "value")] (ext w1)).1 with
                  | Fault e => if is_RequestException e then Completed else Failed
                  | Response _ | RequestFailed => Completed
                  end
              end).
Proof.
  cbv zeta. pose proof (run_async_script_writes w) as [Hf _].
  cbv zeta in Hf. rewrite call_azure_function_result in Hf. split.
  - rewrite run_async_script_eq.
    destruct (run_script "main.py" w) as [[b|e] w1]; [|done].
    by destruct (call_azure_function [("key", "value")] w1) as [[j|e] w2].
  - rewrite Hf. destruct (run_script "main.py" w).1; [|done].
    destruct (post _ _).1 as [body| |e]; [done..|].
    by destruct (is_RequestException e).
Qed.

(** Once a worker has run, a poll reports a terminal state, Completed or
    Failed, whether or not other workers are still pending. *)
Theorem poll_after_worker_is_terminal w :
  (0 < pending w)%nat →
  let w1 := (handle sync status run_async_script WorkerRuns w).2 in
  ∃ t, (t = Completed ∨ t = Failed)
    ∧ (handle sync status run_async_script Poll w1).1
      = Some [("status", literal t)].
Proof.
  intros Hp. cbn [handle]. destruct (pending w) as [|n]; [lia|].
  cbn [snd]. set (w0 := mkWorld _ _ _ _ _ _).
  destruct (run_async_script_writes w0) as [Hf _]. cbv zeta in Hf.
  set (t := match (run_script "main.py" w0).1 with
            | Returned _ => _ | Raised _ => _ end) in Hf.
  exists t. split.
  - unfold t. destruct (run_script "main.py" w0).1; [|by right].
    destruct (call_azure_function _ _).1; [by left | by right].
  - unfold status, try_except, bind, read_status, ret. rewrite Hf.
    by destruct t.
Qed.

End Env.
End src_app.

(** ** The two gateways side by side *)

Module gateways.
Import runtime.

Section Env.

Context {X : Type}.
Variable spawn : list string → X → proc * X.
Variable post : json → X → src_app.http * X.
Variable run_script : string → M (World X) bool.

(** The values a trigger writes to the status file, by prior run state
    ([None]: the status file does not exist). *)
Definition trigger_writes (prior : option run_state) : list string :=
  match prior with
  | Some Completed | Some Running => [literal NotStarted; literal Running]
  | Some Failed | Some NotStarted | None => [literal Running]
  end.

(** C6, amended.  In both gateways a trigger is never rejected and leaves
    the run state Running.  When the prior state is Completed or Running,
    it first writes NotStarted and then Running; when the prior state is
    Failed or NotStarted, or the status file does not exist, it writes
    Running only. *)
Theorem sync_transitions (prior : option run_state) (w : World X) :
  status_file w = literal <$> prior →
  ((HttpTrigger1_app.sync w).1 = Returned acknowledgment
   ∧ status_file (HttpTrigger1_app.sync w).2 = Some (literal Running)
   ∧ status_writes (HttpTrigger1_app.sync w).2
     = (status_writes w ++ trigger_writes prior)%list)
  ∧ ((src_app.sync w).1 = Returned acknowledgment
     ∧ status_file (src_app.sync w).2 = Some (literal Running)
     ∧ status_writes (src_app.sync w).2
       = (status_writes w ++ trigger_writes prior)%list).
Proof.
  intros Hprior. rewrite src_app.src_sync_eq, HttpTrigger1_app.sync_eq, Hprior.
  by destruct prior as [[]|].
Qed.

(** C9.  In both gateways [sync] answers every trigger with the fixed
    acknowledgment, for every state of the world; when it answers, the
    worker it started has not run yet.  Hence every trigger that reaches
    the server is answered with the acknowledgment, whatever the processes
    and HTTP calls of the workers do. *)
Theorem sync_always_acknowledges :
  (∀ w : World X,
     (HttpTrigger1_app.sync w).1 = Returned acknowledgment
     ∧ pending (HttpTrigger1_app.sync w).2 = S (pending w))
  ∧ (∀ w : World X,
       (src_app.sync w).1 = Returned acknowledgment
       ∧ pending (src_app.sync w).2 = S (pending w))
  ∧ (∀ evs w,
       Forall (λ er : event * option json,
                 er.1 = Trigger → er.2 = Some acknowledgment)
         (serve HttpTrigger1_app.sync HttpTrigger1_app.status
            (HttpTrigger1_app.run_async_script spawn) evs w).1)
  ∧ (∀ evs w,
       Forall (λ er : event * option json,
                 er.1 = Trigger → er.2 = Some acknowledgment)
         (serve src_app.sync src_app.status
            (src_app.run_async_script post run_script) evs w).1).
Proof.
  split; [|split; [|split]].
  - intros w. by rewrite HttpTrigger1_app.sync_eq.
  - intros w. by rewrite src_app.src_sync_eq.
  - apply serve_trigger_responses. intros w.
    by rewrite HttpTrigger1_app.sync_eq.
  - apply serve_trigger_responses. intros w. by rewrite src_app.src_sync_eq.
Qed.

(** Triggers are neither rejected nor queued: in both gateways [n] triggers
    in a row are all acknowledged and start [n] workers, whatever the run
    state was and however many workers were already pending. *)
Theorem every_trigger_starts_a_worker (n : nat) (w : World X) :
  (pending (serve HttpTrigger1_app.sync HttpTrigger1_app.status
              (HttpTrigger1_app.run_async_script spawn)
              (replicate n Trigger) w).2 = (pending w + n)%nat
   ∧ (serve HttpTrigger1_app.sync HttpTrigger1_app.status
        (HttpTrigger1_app.run_async_script spawn)
        (replicate n Trigger) w).1
     = replicate n (Trigger, Some acknowledgment))
  ∧ (pending (serve src_app.sync src_app.status
                (src_app.run_async_script post run_script)
                (replicate n Trigger) w).2 = (pending w + n)%nat
     ∧ (serve src_app.sync src_app.status
          (src_app.run_async_script post run_script)
          (replicate n Trigger) w).1
       = replicate n (Trigger, Some acknowledgment)).
Proof.
  split.
  - revert w. induction n as [|n IH]; intros w; simpl; [by rewrite Nat.add_0_r|].
    rewrite HttpTrigger1_app.sync_eq. set (w1 := mkWorld _ _ _ _ _ _).
    destruct (IH w1) as [Hp Hr].
    destruct (serve _ _ _ (replicate n Trigger) w1) as [resps w2].
    simpl in *. rewrite Hp, Hr. split; [lia | done].
  - revert w. induction n as [|n IH]; intros w; simpl; [by rewrite Nat.add_0_r|].
    rewrite src_app.src_sync_eq. set (w1 := mkWorld _ _ _ _ _ _).
    destruct (IH w1) as [Hp Hr].
    destruct (serve _ _ _ (replicate n Trigger) w1) as [resps w2].
    simpl in *. rewrite Hp, Hr. split; [lia | done].
Qed.

End Env.
End gateways.

(** ** [src/project_config.py]: the configuration *)

Module project_config.

(** The entries of [config] that the pipeline reads. *)
Record Config := mkConfig {
  scripts : list string;
  csv_files : list string
}.

Section Env.

(** [script_directory], the directory of [project_config.py]. *)
Variable script_directory : string.

Definition config : Config :=
  mkConfig
    [ os_path_join script_directory "extract.py";
      os_path_join script_directory "filter_groups.py";
      os_path_join script_directory "filter_subjects.py";
      os_path_join script_directory "map_products.py";
      os_path_join script_directory "aggregate.py";
      os_path_join script_directory "convert.py";
      os_path_join script_directory "sharepoint_upload.py" ]
    [ os_path_join script_directory "extracted_data.csv";
      os_path_join script_directory "filtered_groups.csv";
      os_path_join script_directory "filtered_subjects.csv";
      os_path_join script_directory "mapped_filtered_subjects.csv";
      os_path_join script_directory "aggregated_data.csv";
      os_path_join script_directory "aggregated_data.xlsx";
      os_path_join script_directory "detailed_analysis.csv";
      os_path_join script_directory "detailed_analysis.xlsx" ].

Definition get_script_path (script_name : string) : string :=
  os_path_join script_directory script_name.

Definition get_csv_path (filename : string) : string :=
  os_path_join script_directory filename.

Lemma os_path_join_absolute d n :
  startswith d "/" = true → startswith (os_path_join d n) "/" = true.
Proof.
  intros Hd. unfold os_path_join.
  destruct (startswith n "/") eqn:Hn; [done|].
  destruct d as [|a d]; [done|]. unfold startswith in *.
  cbn [String.prefix] in Hd. destruct (ascii_dec "/" a) as [<-|]; [|done].
  destruct (_ || _).
  - change (String.prefix "/" (String "/" (d ++ n)) = true).
    cbn [String.prefix]. destruct (ascii_dec "/" "/"); [|done].
    by destruct (String.append _ _).
  - change (String.prefix "/" (String "/" (d ++ "/" ++ n)) = true).
    cbn [String.prefix]. destruct (ascii_dec "/" "/"); [|done].
    by destruct (String.append _ _).
Qed.

(** The paths of the configuration are absolute when [script_directory]
    is, as [os.path.abspath] makes it.  [get_file_path] of the pipeline
    then returns them unchanged, for every [BASE_DIR]: the scripts and the
    files named by this configuration, and by [get_script_path] and
    [get_csv_path], are those of the directory of the configuration. *)
Theorem config_paths_ignore_BASE_DIR BASE_DIR :
  startswith script_directory "/" = true →
  (∀ name, HttpTrigger1.get_file_path BASE_DIR (get_script_path name)
           = get_script_path name)
  ∧ (∀ name, HttpTrigger1.get_file_path BASE_DIR (get_csv_path name)
             = get_csv_path name)
  ∧ HttpTrigger1.get_file_path BASE_DIR <$> scripts config = scripts config
  ∧ HttpTrigger1.get_file_path BASE_DIR <$> csv_files config = csv_files config.
Proof.
  intros Hd.
  assert (Habs : ∀ name,
            HttpTrigger1.get_file_path BASE_DIR (os_path_join script_directory name)
            = os_path_join script_directory name).
  { intros name. unfold HttpTrigger1.get_file_path.
    unfold os_path_join at 1. by rewrite os_path_join_absolute. }
  split; [done|]. split; [done|].
  unfold config. cbn [scripts csv_files fmap list_fmap].
  by rewrite !Habs.
Qed.

End Env.
End project_config.

(** ** Scenarios

    Concrete environments on which the theorems above are exercised. *)

Module scenarios.

(** *** The request/response pipeline *)

Definition BASE_DIR : string := "/home/site/wwwroot/HttpTrigger1".

Definition scripts : list string := ["extract.py"; "filter_groups.py"; "aggregate.py"].
Definition csv_files : list string := ["extracted_data.csv"].

(** Time leaves the disk alone. *)
Definition still (secs : Z) (x : unit) (d : Disk) : unit * Disk := (x, d).

(** [filter_groups.py] exits with status 1, every other script with 0. *)
Definition spawn_filter_fails (argv : list string) (x : unit) (d : Disk)
  : proc * unit * Disk :=
  if bool_decide (argv = ["python3"; BASE_DIR ++ "/filter_groups.py"])
  then (Exited 1 None None, x, d)
  else (Exited 0 None None, x, d).

(** There is no [python3] to launch. *)
Definition spawn_no_python (argv : list string) (x : unit) (d : Disk)
  : proc * unit * Disk :=
  (CannotStart ENOENT, x, d).

(** The expected file is on the disk, and nothing else. *)
Definition disk_with_output : Disk :=
  {[ BASE_DIR ++ "/extracted_data.csv" := File ]}.

(** The working directory holds a directory named [archive.csv]. *)
Definition disk_with_directory : Disk :=
  <[ BASE_DIR ++ "/archive.csv" := Dir ]> disk_with_output.

Definition world (d : Disk) : HttpTrigger1.World :=
  HttpTrigger1.mkWorld d tt [] [].


(** The expected file appears during the first delay: the verifier returns
    [True] on its second attempt. *)
Definition appears_after_first_delay (secs : Z) (x : nat) (d : Disk)
  : nat * Disk :=
  (S x, match x with
        | O => <[ BASE_DIR ++ "/extracted_data.csv" := File ]> d
        | S _ => d
        end).

Lemma verified_on_second_attempt :
  (HttpTrigger1.check_csv_files appears_after_first_delay BASE_DIR csv_files 3 2
     (HttpTrigger1.mkWorld ∅ O [] [])).1 = Returned true.
Proof.
  apply (HttpTrigger1.check_csv_files_default_policy appears_after_first_delay
           BASE_DIR csv_files (HttpTrigger1.mkWorld ∅ O [] [])).
  exists 1%nat. split; [lia|].
  intros f Hf. apply list_elem_of_singleton in Hf as ->.
  vm_compute. reflexivity.
Defined.

(** [python3] cannot be launched: the exception leaves [run_script] and
    [run_all_scripts]. *)
Lemma launch_failure_escapes :
  (HttpTrigger1.run_script spawn_no_python BASE_DIR "extract.py"
     (world disk_with_output)).1 = Raised (OSError ENOENT)
  ∧ (HttpTrigger1.run_all_scripts spawn_no_python still BASE_DIR scripts
       csv_files (world disk_with_output)).1 = Raised (OSError ENOENT).
Proof.
  apply (HttpTrigger1.run_script_launch_failure_escapes spawn_no_python still
           BASE_DIR scripts csv_files 0%nat "extract.py"
           (world disk_with_output) ENOENT); reflexivity.
Defined.

(** [python3] cannot be launched: the sweeper is not invoked, and the
    expected file stays on the disk. *)
Lemma launch_failure_skips_sweep :
  (HttpTrigger1.run_all_scripts spawn_no_python still BASE_DIR scripts
     csv_files (world disk_with_output)).1 = Raised (OSError ENOENT)
  ∧ HttpTrigger1.sweeper_calls
      (HttpTrigger1.new_calls (world disk_with_output)
         (HttpTrigger1.run_all_scripts spawn_no_python still BASE_DIR scripts
            csv_files (world disk_with_output)).2) = [].
Proof.
  apply (HttpTrigger1.run_all_scripts_launch_failure_skips_sweep
           spawn_no_python still BASE_DIR scripts csv_files 0%nat "extract.py"
           (world disk_with_output) ENOENT); reflexivity.
Defined.

(** A directory named [archive.csv]: the sweep raises. *)
Lemma sweep_raises_on_directory :
  (HttpTrigger1.delete_files BASE_DIR csv_files (world disk_with_directory)).1
  = Raised (OSError EISDIR).
Proof.
  apply (HttpTrigger1.delete_files_raises_on_tracked_directory BASE_DIR
           csv_files (world disk_with_directory) "archive.csv").
  - discriminate.
  - vm_compute. repeat constructor.
  - vm_compute. reflexivity.
  - vm_compute. reflexivity.
Defined.

(** Every script exits with status 0. *)
Definition spawn_all_ok (argv : list string) (x : unit) (d : Disk)
  : proc * unit * Disk :=
  (Exited 0 None None, x, d).

Definition request : HttpTrigger1.HttpRequest :=
  HttpTrigger1.mkRequest "POST" "/api/HttpTrigger1" [].

Definition answer (spawn : list string → unit → Disk → proc * unit * Disk)
    (d : Disk) : result Z * list string :=
  let '(r, w) := HttpTrigger1.main spawn still BASE_DIR scripts csv_files
                   request (world d) in
  (match r with
   | Returned resp => Returned (HttpTrigger1.status_code resp)
   | Raised e => Raised e
   end, listdir (HttpTrigger1.disk w) BASE_DIR).

(** All scripts succeed and the expected file exists: status 200, and the
    directory is empty afterwards. *)
Example all_succeed_200 :
  answer spawn_all_ok disk_with_output = (Returned 200, []).
Proof. vm_compute. reflexivity. Qed.

(** A script exits with status 1: status 400, and the sweep still runs. *)
Example stage_fails_400 :
  answer spawn_filter_fails disk_with_output = (Returned 400, []).
Proof. vm_compute. reflexivity. Qed.

(** The expected file never appears: status 400. *)
Example file_missing_400 : answer spawn_all_ok ∅ = (Returned 400, []).
Proof. vm_compute. reflexivity. Qed.

(** [python3] cannot be launched: status 500, and the expected file is
    still there. *)
Example launch_failure_500 :
  answer spawn_no_python disk_with_output
  = (Returned 500, ["extracted_data.csv"]).
Proof. vm_compute. reflexivity. Qed.

(** All scripts succeed, and the sweep meets a directory: status 500. *)
Example directory_500 :
  (answer spawn_all_ok disk_with_directory).1 = Returned 500.
Proof. vm_compute. reflexivity. Qed.

(** [python3] cannot be launched: [main] answers 500, not 400. *)
Lemma launch_failure_answered_500 :
  ∃ resp,
    (HttpTrigger1.main spawn_no_python still BASE_DIR scripts csv_files request
       (world disk_with_output)).1 = Returned resp
    ∧ HttpTrigger1.status_code resp = 500
    ∧ HttpTrigger1.status_code resp ≠ 400.
Proof.
  apply (HttpTrigger1.main_launch_failure_is_server_error spawn_no_python still
           BASE_DIR scripts csv_files request 0%nat "extract.py"
           (world disk_with_output) ENOENT); reflexivity.
Defined.

(** *** The Flask gateways *)

(** The launched process exits with status 1 and a message on its standard
    error. *)
Definition spawn_exit_1 (argv : list string) (x : unit) : proc * unit :=
  (Exited 1 (Some "") (Some "Traceback"), x).

(** The Azure Function answers with an empty object. *)
Definition post_ok (payload : runtime.json) (x : unit) : src_app.http * unit :=
  (src_app.Response [], x).

Definition gateway (content : option string) : runtime.World unit :=
  runtime.mkWorld tt content [] 0 [] [].

(** The stage exits with status 1, and the worker of [src/app.py] records
    the run as completed. *)
Lemma failed_stage_recorded_as_completed :
  runtime.status_file
    (src_app.run_async_script post_ok (main.run_script spawn_exit_1)
       (gateway (Some "Sync running"))).2
  = Some "Sync completed".
Proof.
  apply (src_app.run_async_script_ignores_stage_failure post_ok
           (main.run_script spawn_exit_1) (gateway (Some "Sync running"))).
  - reflexivity.
  - intros e. vm_compute. discriminate.
Defined.

(** C6 as stated fails on the code: a trigger after a failed run writes
    ["Sync running"] only, without writing ["Sync not started"] first, in
    both gateways. *)
Lemma sync_after_failed_run_skips_reset :
  runtime.status_writes (HttpTrigger1_app.sync (gateway (Some "Sync failed"))).2
  = ["Sync running"]
  ∧ runtime.status_writes (src_app.sync (gateway (Some "Sync failed"))).2
    = ["Sync running"]
  ∧ ¬ (∀ prior : runtime.run_state,
         prior = runtime.Completed ∨ prior = runtime.Failed →
         runtime.status_writes
           (HttpTrigger1_app.sync (gateway (Some (runtime.literal prior)))).2
         = ["Sync not started"; "Sync running"]).
Proof.
  split; [reflexivity|]. split; [reflexivity|].
  intros Hclaim. specialize (Hclaim runtime.Failed (or_intror eq_refl)).
  vm_compute in Hclaim. discriminate Hclaim.
Defined.

(** A trigger after a completed run passes through ["Sync not started"]. *)
Lemma sync_after_completed_run :
  runtime.status_writes (HttpTrigger1_app.sync (gateway (Some "Sync completed"))).2
  = ["Sync not started"; "Sync running"]
  ∧ runtime.status_writes (src_app.sync (gateway (Some "Sync completed"))).2
    = ["Sync not started"; "Sync running"].
Proof.
  destruct (gateways.sync_transitions (Some runtime.Completed)
              (gateway (Some "Sync completed")))
    as [(_ & _ & Hw1) (_ & _ & Hw2)].
  - reflexivity.
  - exact (conj Hw1 Hw2).
Defined.

(** After a trigger the worker of [HttpTrigger1/app.py] runs, its process
    exits with status 1, and the status is polled: the status file still
    says ["Sync running"]. *)
Lemma status_stays_running :
  runtime.status_file
    (runtime.serve HttpTrigger1_app.sync HttpTrigger1_app.status
       (HttpTrigger1_app.run_async_script spawn_exit_1)
       [runtime.WorkerRuns; runtime.Poll]
       (HttpTrigger1_app.sync (gateway None)).2).2
  = Some "Sync running".
Proof.
  destruct (HttpTrigger1_app.worker_never_writes_status spawn_exit_1
              [runtime.WorkerRuns; runtime.Poll] (gateway None))
    as (_ & Hfile & _).
  - intros Hin. apply elem_of_cons in Hin as [Hin|Hin]; [discriminate Hin|].
    apply elem_of_cons in Hin as [Hin|Hin]; [discriminate Hin|].
    by apply elem_of_nil in Hin.
  - exact Hfile.
Defined.

(** Two triggers around a worker whose process fails: both are answered
    with the acknowledgment. *)
Lemma triggers_acknowledged :
  (runtime.serve src_app.sync src_app.status
     (src_app.run_async_script post_ok (main.run_script spawn_exit_1))
     [runtime.Trigger; runtime.WorkerRuns; runtime.Trigger]
     (gateway None)).1
  = [(runtime.Trigger, Some runtime.acknowledgment);
     (runtime.WorkerRuns, None);
     (runtime.Trigger, Some runtime.acknowledgment)].
Proof. reflexivity. Qed.

(** *** Further scenarios of the pipeline *)


(** A stage fails: the sweeper is still invoked once, as the last call. *)
Lemma one_sweep_after_a_failed_stage :
  HttpTrigger1.sweeper_calls
    (HttpTrigger1.new_calls (world disk_with_output)
       (HttpTrigger1.run_all_scripts spawn_filter_fails still BASE_DIR scripts
          csv_files (world disk_with_output)).2)
  = [HttpTrigger1.Call_delete_files csv_files]
  ∧ last (HttpTrigger1.calls
            (HttpTrigger1.run_all_scripts spawn_filter_fails still BASE_DIR
               scripts csv_files (world disk_with_output)).2)
    = Some (HttpTrigger1.Call_delete_files csv_files).
Proof.
  apply (HttpTrigger1.run_all_scripts_sweeps_once spawn_filter_fails still
           BASE_DIR scripts csv_files (world disk_with_output)).
  vm_compute. reflexivity.
Defined.

(** The sweep of a directory that holds the expected file and a file
    [notes.csv]: both are gone, and a second sweep changes nothing. *)
Definition disk_with_notes : Disk :=
  <[ BASE_DIR ++ "/notes.csv" := File ]> disk_with_output.

Lemma sweep_returns_and_cleans :
  let w' := (HttpTrigger1.delete_files BASE_DIR csv_files
               (world disk_with_notes)).2 in
  (∀ f, f ∈ csv_files →
        isfile (HttpTrigger1.disk w') (HttpTrigger1.get_file_path BASE_DIR f)
        = false)
  ∧ (∀ n, n ∈ listdir (HttpTrigger1.disk w') BASE_DIR →
          HttpTrigger1.tracked n = false)
  ∧ (HttpTrigger1.delete_files BASE_DIR csv_files w').1 = Returned tt
  ∧ HttpTrigger1.disk (HttpTrigger1.delete_files BASE_DIR csv_files w').2
    = HttpTrigger1.disk w'.
Proof.
  apply (HttpTrigger1.delete_files_returns_clean BASE_DIR csv_files
           (world disk_with_notes)).
  vm_compute. reflexivity.
Defined.



(** After the answer 200 the expected file is gone. *)
Lemma answer_200_after_cleanup :
  isfile (HttpTrigger1.disk
            (HttpTrigger1.main spawn_all_ok still BASE_DIR scripts csv_files
               request (world disk_with_output)).2)
    (HttpTrigger1.get_file_path BASE_DIR "extracted_data.csv") = false.
Proof.
  destruct (HttpTrigger1.main_answers_after_cleanup spawn_all_ok still BASE_DIR
              scripts csv_files request (world disk_with_output)
              (HttpTrigger1.mkResponse
                 "All scripts executed successfully and all required CSV files are present."
                 200)) as [Hfiles _].
  - vm_compute. reflexivity.
  - simpl. discriminate.
  - apply Hfiles. left.
Defined.

(** *** Further scenarios of the verifier *)

Definition waiting : HttpTrigger1.World := HttpTrigger1.mkWorld ∅ O [] [].

(** With five attempts and a delay of one second the file that appears
    during the first delay is found. *)
Lemma found_with_five_attempts :
  (HttpTrigger1.check_csv_files appears_after_first_delay BASE_DIR csv_files 5 1
     waiting).1 = Returned true.
Proof.
  apply (HttpTrigger1.check_csv_files_any_policy appears_after_first_delay
           BASE_DIR csv_files 5 1 waiting).
  - lia.
  - exists 1%nat. split; [vm_compute; lia|].
    intros f Hf. apply list_elem_of_singleton in Hf as ->.
    vm_compute. reflexivity.
Defined.

(** What two attempts find, five attempts find. *)
Lemma found_with_more_attempts :
  (HttpTrigger1.check_csv_files appears_after_first_delay BASE_DIR csv_files 5 2
     waiting).1 = Returned true.
Proof.
  apply (HttpTrigger1.check_csv_files_more_retries appears_after_first_delay
           BASE_DIR csv_files 2 5 2 waiting).
  - lia.
  - lia.
  - vm_compute. reflexivity.
Defined.

(** No attempt, no verification, although the file is there; one attempt
    and nothing to expect. *)
Lemma nothing_verified_without_attempts :
  (HttpTrigger1.check_csv_files still BASE_DIR csv_files 0 2
     (world disk_with_output)).1 = Returned false
  ∧ (HttpTrigger1.check_csv_files still BASE_DIR [] 1 2 (world ∅)).1
    = Returned true.
Proof.
  split.
  - apply (HttpTrigger1.check_csv_files_no_attempt still BASE_DIR csv_files 0 2
             (world disk_with_output)). lia.
  - apply (HttpTrigger1.check_csv_files_no_attempt still BASE_DIR csv_files 1 2
             (world ∅)). lia.
Defined.

(** A negative delay and a missing file: [ValueError]. *)
Lemma negative_delay_raises :
  (HttpTrigger1.check_csv_files still BASE_DIR csv_files 3 (-1) (world ∅)).1
  = Raised ValueError.
Proof.
  apply (HttpTrigger1.check_csv_files_negative_delay still BASE_DIR csv_files
           3 (-1) (world ∅)).
  - lia.
  - lia.
  - vm_compute. discriminate.
Defined.

(** One attempt of the retrying verifier against the one-shot verifier. *)
Lemma single_attempt_is_one_shot :
  (HttpTrigger1.check_csv_files still BASE_DIR csv_files 1 2
     (world disk_with_output)).1
  = (main_verifier.check_csv_files
       (HttpTrigger1.get_file_path BASE_DIR <$> csv_files)
       (world disk_with_output)).1.
Proof.
  apply (main_verifier.check_csv_files_single_attempt still BASE_DIR csv_files 2
           (world disk_with_output)).
  lia.
Defined.

(** *** Further scenarios of the gateways *)

(** After a trigger in the [HttpTrigger1] gateway, a worker whose process
    fails and two polls: both polls say ["Sync running"]. *)
Lemma polls_say_running :
  Forall (λ er : runtime.event * option runtime.json,
            er.1 = runtime.Poll → er.2 = Some [("status", "Sync running")])
    (runtime.serve HttpTrigger1_app.sync HttpTrigger1_app.status
       (HttpTrigger1_app.run_async_script spawn_exit_1)
       [runtime.Poll; runtime.WorkerRuns; runtime.Poll]
       (HttpTrigger1_app.sync (gateway None)).2).1.
Proof.
  destruct (HttpTrigger1_app.polls_keep_saying_running spawn_exit_1
              [runtime.Poll; runtime.WorkerRuns; runtime.Poll]
              (HttpTrigger1_app.sync (gateway None)).2) as [Hpolls _].
  - intros Hin. apply elem_of_cons in Hin as [Hin|Hin]; [discriminate Hin|].
    apply elem_of_cons in Hin as [Hin|Hin]; [discriminate Hin|].
    apply elem_of_cons in Hin as [Hin|Hin]; [discriminate Hin|].
    by apply elem_of_nil in Hin.
  - reflexivity.
  - exact Hpolls.
Defined.

(** In the gateway of [src/app.py] a poll after the worker has run reports
    a terminal state. *)
Lemma poll_after_worker :
  ∃ t, (t = runtime.Completed ∨ t = runtime.Failed)
    ∧ (runtime.handle src_app.sync src_app.status
         (src_app.run_async_script post_ok (main.run_script spawn_exit_1))
         runtime.Poll
         (runtime.handle src_app.sync src_app.status
            (src_app.run_async_script post_ok (main.run_script spawn_exit_1))
            runtime.WorkerRuns (src_app.sync (gateway None)).2).2).1
      = Some [("status", runtime.literal t)].
Proof.
  apply (src_app.poll_after_worker_is_terminal post_ok
           (main.run_script spawn_exit_1) (src_app.sync (gateway None)).2).
  vm_compute. lia.
Defined.

(** A configuration in [/home/site/wwwroot/src] and a pipeline in
    [BASE_DIR]: the paths of the configuration are used as they are. *)
Lemma configured_paths_are_kept :
  HttpTrigger1.get_file_path BASE_DIR
    <$> project_config.csv_files (project_config.config "/home/site/wwwroot/src")
  = project_config.csv_files (project_config.config "/home/site/wwwroot/src").
Proof.
  destruct (project_config.config_paths_ignore_BASE_DIR "/home/site/wwwroot/src"
              BASE_DIR) as (_ & _ & _ & Hfiles).
  - reflexivity.
  - exact Hfiles.
Defined.

End scenarios.
